(** * duh: the container cache and its reconciliation service

    A shallow embedding of the Go packages [store] (store/memory.go),
    [docker] (the data types of the client, and what its
    [GetContainerStats] does with a decoded sample) and [service], and the
    properties of the cache that the specification states about them.

    The service is modelled in its form with [SyncContainers], [SyncStats]
    and [Sync] as three functions, the form the specification describes
    (a pass lists, resolves transitions, merges, enriches concurrently and
    purges).  service/containers.go holds the same package with the stats
    code inlined in the merge loop of [Sync]; its transition and merge
    loops, [StartContainer], [StopContainer], [sortContainers] and
    [getStatusPriority] are the same text.

    Conventions of the embedding.
    - Go strings are [string]; [uint64], [uint32] and [int64] values are
      [Z], with the wrap-around of unsigned subtraction written out.
    - [float64] is IEEE 754 binary64, taken from the standard library's
      executable [SpecFloat] model (precision 53, emax 1024).
    - A [*Stats] pointer is an [option Stats]: no code of the repository
      writes through such a pointer after it was stored.
    - [time.Time] is a number of nanoseconds on one time line, and
      [time.Duration] a [Z]; [Time.Sub] saturates as in Go.
    - The store's mutex makes each store method atomic; a method is a
      function of the store and of the instant [time.Now()] returned
      inside it.  The service runs in a state monad over the store and
      the number of clock readings made so far.
    - The Docker client is the environment: every call of the client is
      given the response it receives as an argument.
    - The stats goroutines of a pass touch the store in one locked call
      each; their interleaving is a parameter, any order of the workers. *)

From Stdlib Require Import ZArith Lia SpecFloat.
From stdpp Require Import gmap strings list sorting.

Local Open Scope string_scope.
Local Open Scope Z_scope.

(** ** float64 *)

Module Float64.

Definition float64 : Type := spec_float.

Definition prec : Z := 53.
Definition emax : Z := 1024.

Definition zero : float64 := S754_zero false.

Definition mul : float64 → float64 → float64 := SFmul prec emax.
Definition div : float64 → float64 → float64 := SFdiv prec emax.
Definition eqb : float64 → float64 → bool := SFeqb.

(** [float64(n)] for an integer [n]: the nearest binary64, ties to even. *)
Definition of_Z (n : Z) : float64 := binary_normalize prec emax n 0 false.

Definition minInt64 : Z := - 2 ^ 63.
Definition maxInt64 : Z := 2 ^ 63 - 1.

(** The integer part of a finite float (truncation toward zero), without
    any bound on the result. *)
Definition trunc (x : float64) : option Z :=
  match x with
  | S754_zero _ => Some 0
  | S754_finite s m e =>
      let a := if bool_decide (0 ≤ e) then Z.shiftl (Z.pos m) e
               else Z.shiftr (Z.pos m) (- e) in
      Some (if s then - a else a)
  | S754_infinity _ | S754_nan => None
  end.

(** [int(x)] on a 64-bit platform.  Go leaves the result to the
    implementation when the value does not fit; amd64 yields the least
    int64, which is what this model returns. *)
Definition to_int (x : float64) : Z :=
  match trunc x with
  | Some n => if bool_decide (minInt64 ≤ n ≤ maxInt64) then n else minInt64
  | None => minInt64
  end.

Definition ltb : float64 → float64 → bool := SFltb.

(** [uint64(x)] on amd64, where the conversion goes through the signed
    one (for [x] below [2^63] directly, above it after subtracting
    [2^63]): the integer part when it fits, the two's complement of a
    negative integer part that fits an int64, and [2^63] otherwise.  Go
    leaves the result to the implementation when the value does not fit. *)
Definition to_uint64 (x : float64) : Z :=
  match trunc x with
  | Some n =>
      if bool_decide (0 ≤ n < 2 ^ 64) then n
      else if bool_decide (minInt64 ≤ n < 0) then n + 2 ^ 64
      else 2 ^ 63
  | None => 2 ^ 63
  end.

End Float64.

Abbreviation float64 := Float64.float64.

(** ** time *)

Module time.

Definition Time : Type := Z.
Definition Duration : Type := Z.

Definition minDuration : Duration := - 2 ^ 63.
Definition maxDuration : Duration := 2 ^ 63 - 1.

(** [t.Sub(u)]: the duration [t - u], saturated to the range of
    [Duration]. *)
Definition Sub (t u : Time) : Duration :=
  Z.max minDuration (Z.min maxDuration (t - u)).

End time.

(** ** package store *)

Module store.

Definition StateStarting : string := "starting".
Definition StateStopping : string := "stopping".

Record Stats := mkStats {
  Memory_Usage : Z;
  Memory_Limit : Z;
  CPU_Usage : float64;
  CPU_Cores : Z;
  CPU_SystemMS : Z
}.

Record ContainerData := mkContainerData {
  ID : string;
  Names : list string;
  Image : string;
  State : string;
  Status : string;
  Created : Z;
  Stats_ : option Stats;
  Updated : time.Time
}.

(** The zero values [Stats{}] and [ContainerData{}]. *)
Definition Stats_zero : Stats := mkStats 0 0 Float64.zero 0 0.
Definition ContainerData_zero : ContainerData :=
  mkContainerData "" [] "" "" "" 0 None 0.

(** Field assignments [c.F = v]. *)
Definition set_State (v : string) (c : ContainerData) : ContainerData :=
  mkContainerData (ID c) (Names c) (Image c) v (Status c) (Created c)
                  (Stats_ c) (Updated c).
Definition set_Status (v : string) (c : ContainerData) : ContainerData :=
  mkContainerData (ID c) (Names c) (Image c) (State c) v (Created c)
                  (Stats_ c) (Updated c).
Definition set_Stats (v : option Stats) (c : ContainerData) : ContainerData :=
  mkContainerData (ID c) (Names c) (Image c) (State c) (Status c) (Created c)
                  v (Updated c).
Definition set_Updated (v : time.Time) (c : ContainerData) : ContainerData :=
  mkContainerData (ID c) (Names c) (Image c) (State c) (Status c) (Created c)
                  (Stats_ c) v.

Record Store := mkStore {
  containers : gmap string ContainerData;
  ttl : time.Duration
}.

Definition NewStore (ttl : time.Duration) : Store := mkStore ∅ ttl.

(** [now.Sub(container.Updated) > s.ttl] *)
Definition stale (s : Store) (now : time.Time) (c : ContainerData) : bool :=
  bool_decide (ttl s < time.Sub now (Updated c)).

(** [RemoveStaleData]: the range loop over the map, deleting as it goes. *)
Definition RemoveStaleData (now : time.Time) (s : Store) : Store :=
  mkStore
    (foldr (λ '(id, container) m,
              if stale s now container then delete id m else m)
           (containers s) (map_to_list (containers s)))
    (ttl s).

Definition Update (now : time.Time) (container : ContainerData) (s : Store)
  : Store :=
  let container :=
    match containers s !! ID container with
    | Some existing =>
        if bool_decide (State container ≠ "exited")
        then set_Stats (Stats_ existing) container
        else container
    | None => container
    end in
  let container := set_Updated now container in
  mkStore (<[ID container := container]> (containers s)) (ttl s).

(** The entry [Update] stores. *)
Definition stored_by_Update (now : time.Time) (c : ContainerData) (s : Store)
  : ContainerData :=
  set_Updated now
    match containers s !! ID c with
    | Some existing =>
        if bool_decide (State c ≠ "exited")
        then set_Stats (Stats_ existing) c else c
    | None => c
    end.

Definition UpdateStats (now : time.Time) (id : string) (stats : option Stats)
    (s : Store) : Store * bool :=
  match containers s !! id with
  | Some container =>
      let container := set_Stats stats container in
      let container := set_Updated now container in
      (mkStore (<[id := container]> (containers s)) (ttl s), true)
  | None => (s, false)
  end.

(** [List]: the entries that are not stale, in the order in which the
    range loop meets them (Go leaves that order open; the model takes the
    order of [map_to_list], and no statement below depends on it). *)
Definition List (now : time.Time) (s : Store) : list ContainerData :=
  filter (λ c, stale s now c = false) (map_to_list (containers s)).*2.

Definition Get (now : time.Time) (id : string) (s : Store)
  : ContainerData * bool :=
  match containers s !! id with
  | None => (ContainerData_zero, false)
  | Some container =>
      if stale s now container then (ContainerData_zero, false)
      else (container, true)
  end.

(** Every key of the map is the [ID] of its entry: [Update] stores under
    [container.ID] and nothing else adds a key. *)
Definition wf (s : Store) : Prop :=
  ∀ k c, containers s !! k = Some c → ID c = k.

End store.

(** ** package docker: the data the client returns *)

Module docker.

Record Container := mkContainer {
  ID : string;
  Names : list string;
  Image : string;
  State : string;
  Status : string;
  Created : Z
}.

Record ContainerStats := mkContainerStats {
  CPUStats_TotalUsage : Z;          (* CPUStats.CPUUsage.TotalUsage, uint64 *)
  CPUStats_SystemCPUUsage : Z;      (* CPUStats.SystemCPUUsage, uint64 *)
  CPUStats_OnlineCPUs : Z;          (* CPUStats.OnlineCPUs, uint32 *)
  PreCPUStats_TotalUsage : Z;       (* PreCPUStats.CPUUsage.TotalUsage *)
  PreCPUStats_SystemCPUUsage : Z;   (* PreCPUStats.SystemCPUUsage *)
  MemoryStats_Usage : Z;
  MemoryStats_Limit : Z
}.

Definition Container_zero : Container := mkContainer "" [] "" "" "" 0.

Definition uint64 (n : Z) : Prop := 0 ≤ n < 2 ^ 64.
Definition uint32 (n : Z) : Prop := 0 ≤ n < 2 ^ 32.

(** The values a decoded sample can hold. *)
Definition ContainerStats_ok (st : ContainerStats) : Prop :=
  uint64 (CPUStats_TotalUsage st) ∧ uint64 (CPUStats_SystemCPUUsage st) ∧
  uint32 (CPUStats_OnlineCPUs st) ∧ uint64 (PreCPUStats_TotalUsage st) ∧
  uint64 (PreCPUStats_SystemCPUUsage st) ∧
  uint64 (MemoryStats_Usage st) ∧ uint64 (MemoryStats_Limit st).

End docker.

(** ** package service *)

Module service.

Definition error : Type := string.

(** A call of the client returns a value or an error. *)
Inductive result (A : Type) : Type :=
| Ok (a : A)
| Err (e : error).
Arguments Ok {A} a.
Arguments Err {A} e.

(** The state the service runs in: the store, and how many times the
    clock has been read. *)
Record World := mkWorld {
  w_store : store.Store;
  w_tick : nat
}.

Definition M (A : Type) : Type := World → A * World.

Definition ret {A} (a : A) : M A := λ w, (a, w).
Definition bind {A B} (m : M A) (k : A → M B) : M B :=
  λ w, let '(a, w') := m w in k a w'.

Notation "x <- m ;; k" := (bind m (λ x, k))
  (at level 100, m at next level, right associativity).
Notation "m ;;; k" := (bind m (λ _, k))
  (at level 100, right associativity).

(** [for _, a := range l { f a }] *)
Fixpoint forM_ {A} (l : list A) (f : A → M unit) : M unit :=
  match l with
  | [] => ret tt
  | a :: l' => f a ;;; forM_ l' f
  end.

(** [uint64] subtraction wraps around. *)
Definition sub64 (a b : Z) : Z := (a - b) mod 2 ^ 64.

(** The struct literal built from a listing record: [Stats] and
    [Updated] keep their zero values. *)
Definition fromDocker (c : docker.Container) : store.ContainerData :=
  store.mkContainerData (docker.ID c) (docker.Names c) (docker.Image c)
    (docker.State c) (docker.Status c) (docker.Created c) None 0.

(** [containerMap[c.ID] = c] for every record of the listing, in order. *)
Definition containerMap (containers : list docker.Container)
  : gmap string docker.Container :=
  foldl (λ m c, <[docker.ID c := c]> m) ∅ containers.

(** [dockerC, exists := containerMap[id]] *)
Definition lookupContainer (cm : gmap string docker.Container) (id : string)
  : docker.Container * bool :=
  match cm !! id with
  | Some c => (c, true)
  | None => (docker.Container_zero, false)
  end.

(** The body of one stats goroutine up to the call of [UpdateStats]. *)
Definition convertStats (stats : docker.ContainerStats) : store.Stats :=
  let cpuDelta :=
    sub64 (docker.CPUStats_TotalUsage stats) (docker.PreCPUStats_TotalUsage stats) in
  let systemDelta :=
    sub64 (docker.CPUStats_SystemCPUUsage stats)
          (docker.PreCPUStats_SystemCPUUsage stats) in
  let usage :=
    if bool_decide (systemDelta > 0) && bool_decide (cpuDelta > 0) then
      let cpuDeltaNs := Float64.of_Z cpuDelta in
      let systemDeltaNs := Float64.of_Z systemDelta in
      let numCPUs := Float64.of_Z (docker.CPUStats_OnlineCPUs stats) in
      let numCPUs :=
        if Float64.eqb numCPUs (Float64.of_Z 0) then Float64.of_Z 1
        else numCPUs in
      let cpuPercent :=
        Float64.mul (Float64.div cpuDeltaNs systemDeltaNs) (Float64.of_Z 100) in
      let cpuPercent := Float64.mul cpuPercent numCPUs in
      let cpuPercent :=
        Float64.div
          (Float64.of_Z (Float64.to_int (Float64.mul cpuPercent (Float64.of_Z 100))))
          (Float64.of_Z 100) in
      cpuPercent
    else Float64.zero in
  store.mkStats (docker.MemoryStats_Usage stats) (docker.MemoryStats_Limit stats)
    usage (docker.CPUStats_OnlineCPUs stats)
    (docker.CPUStats_SystemCPUUsage stats / 1000000).

(** The same conversion as service/containers.go has it, inlined in
    [Sync]: the percentage is stored as computed, and the number of cores
    is taken as reported. *)
Definition convertStats_inline (stats : docker.ContainerStats) : store.Stats :=
  let cpuDelta :=
    sub64 (docker.CPUStats_TotalUsage stats) (docker.PreCPUStats_TotalUsage stats) in
  let systemDelta :=
    sub64 (docker.CPUStats_SystemCPUUsage stats)
          (docker.PreCPUStats_SystemCPUUsage stats) in
  let usage :=
    if bool_decide (systemDelta > 0) && bool_decide (cpuDelta > 0) then
      Float64.mul
        (Float64.mul (Float64.div (Float64.of_Z cpuDelta) (Float64.of_Z systemDelta))
                     (Float64.of_Z 100))
        (Float64.of_Z (docker.CPUStats_OnlineCPUs stats))
    else Float64.zero in
  store.mkStats (docker.MemoryStats_Usage stats) (docker.MemoryStats_Limit stats)
    usage (docker.CPUStats_OnlineCPUs stats)
    (docker.CPUStats_SystemCPUUsage stats / 1000000).

(** [for _, c := range containers { if c.ID == id { ...; break } }] *)
Definition findContainer (id : string) (containers : list docker.Container)
  : option docker.Container :=
  find (λ c, bool_decide (docker.ID c = id)) containers.

(** The seed built when the entry is not in the store: id, names, image
    and creation time of the listing record. *)
Definition seedFrom (c : docker.Container) : store.ContainerData :=
  store.mkContainerData (docker.ID c) (docker.Names c) (docker.Image c)
    "" "" (docker.Created c) None 0.

Definition getStatusPriority (state : string) : Z :=
  if bool_decide (state = "running") then 0
  else if bool_decide (state = store.StateStopping) then 1
  else if bool_decide (state = store.StateStarting) then 2
  else if bool_decide (state = "exited") then 3
  else 4.

(** The [less] closure of [sortContainers]. *)
Definition less (ci cj : store.ContainerData) : bool :=
  let iPriority := getStatusPriority (store.State ci) in
  let jPriority := getStatusPriority (store.State cj) in
  if bool_decide (iPriority ≠ jPriority) then bool_decide (iPriority < jPriority)
  else
    match store.Stats_ ci, store.Stats_ cj with
    | Some si, Some sj =>
        if bool_decide (store.Memory_Usage si ≠ store.Memory_Usage sj)
        then bool_decide (store.Memory_Usage si > store.Memory_Usage sj)
        else bool_decide (store.Created ci > store.Created cj)
    | Some _, None => true
    | None, Some _ => false
    | None, None => bool_decide (store.Created ci > store.Created cj)
    end.

(** [a] may stand before [b]: [b] is not less than [a]. *)
Definition notAfter (a b : store.ContainerData) : Prop := less b a = false.

Global Instance notAfter_dec a b : Decision (notAfter a b).
Proof. unfold notAfter. apply _. Defined.

(** [sort.Slice(containers, less)].  The library's sort is not stable
    and its algorithm is not part of this repository; a merge sort with
    the same [less] stands for it, and what is proved of the result is
    what every correct sort gives: a sorted permutation. *)
Definition sortContainers (containers : list store.ContainerData)
  : list store.ContainerData :=
  merge_sort notAfter containers.

Section Service.

(** [clock n] is what the [n]-th call of [time.Now()] returns. *)
Variable clock : nat → time.Time.

Definition time_Now : M time.Time :=
  λ w, (clock (w_tick w), mkWorld (w_store w) (S (w_tick w))).

(** The store's methods.  [Update], [List] and [RemoveStaleData] read the
    clock once; [UpdateStats] and [Get] read it once when the map has an
    entry of the id, and not at all otherwise. *)
Definition store_Update (c : store.ContainerData) : M unit :=
  now <- time_Now ;;
  λ w, (tt, mkWorld (store.Update now c (w_store w)) (w_tick w)).

Definition store_UpdateStats (id : string) (stats : option store.Stats)
  : M bool :=
  λ w, match store.containers (w_store w) !! id with
       | None => (false, w)
       | Some _ =>
           (now <- time_Now ;;
            λ w, let '(s, b) := store.UpdateStats now id stats (w_store w) in
                 (b, mkWorld s (w_tick w))) w
       end.

Definition store_List : M (list store.ContainerData) :=
  now <- time_Now ;;
  λ w, (store.List now (w_store w), w).

Definition store_Get (id : string) : M (store.ContainerData * bool) :=
  λ w, match store.containers (w_store w) !! id with
       | None => ((store.ContainerData_zero, false), w)
       | Some _ =>
           (now <- time_Now ;;
            λ w, (store.Get now id (w_store w), w)) w
       end.

Definition store_RemoveStaleData : M unit :=
  now <- time_Now ;;
  λ w, (tt, mkWorld (store.RemoveStaleData now (w_store w)) (w_tick w)).

(** The body of the first loop of [SyncContainers]. *)
Definition resolveTransition (cm : gmap string docker.Container)
    (stored : store.ContainerData) : M unit :=
  let '(dockerC, exists_) := lookupContainer cm (store.ID stored) in
  if bool_decide (store.State stored = store.StateStarting) then
    if negb exists_ || bool_decide (docker.State dockerC = "running") then
      if exists_ then store_Update (fromDocker dockerC) else ret tt
    else ret tt
  else if bool_decide (store.State stored = store.StateStopping) then
    if negb exists_ || bool_decide (docker.State dockerC = "exited") then
      if exists_ then store_Update (fromDocker dockerC) else ret tt
    else ret tt
  else ret tt.

(** The body of the second loop of [SyncContainers]. *)
Definition mergeContainer (c : docker.Container) : M unit :=
  got <- store_Get (docker.ID c) ;;
  let '(stored, exists_) := got in
  if exists_ &&
     (bool_decide (store.State stored = store.StateStarting) ||
      bool_decide (store.State stored = store.StateStopping))
  then ret tt
  else store_Update (fromDocker c).

(** [SyncContainers], given the response of [ListContainers]. *)
Definition SyncContainers (listing : result (list docker.Container))
  : M (result (list docker.Container)) :=
  match listing with
  | Err err => ret (Err err)
  | Ok containers =>
      let cm := containerMap containers in
      stored <- store_List ;;
      forM_ stored (resolveTransition cm) ;;;
      forM_ containers mergeContainer ;;;
      ret (Ok containers)
  end.

(** One stats goroutine, given the responses of [GetContainerStats]. *)
Definition statsWorker (getStats : string → result docker.ContainerStats)
    (c : docker.Container) : M unit :=
  match getStats (docker.ID c) with
  | Err _ => ret tt
  | Ok stats =>
      store_UpdateStats (docker.ID c) (Some (convertStats stats)) ;;; ret tt
  end.

(** [SyncStats]: one goroutine per running container of the listing,
    all joined.  Each goroutine touches the store in one locked call,
    so a run is the workers' calls in some order: [sched] is the order
    in which the started workers reach the store. *)
Definition SyncStats (getStats : string → result docker.ContainerStats)
    (sched : list docker.Container → list docker.Container)
    (containers : list docker.Container) : M unit :=
  forM_ (sched (filter (λ c, docker.State c = "running") containers))
        (statsWorker getStats).

Definition Sync (listing : result (list docker.Container))
    (getStats : string → result docker.ContainerStats)
    (sched : list docker.Container → list docker.Container)
  : M (option error) :=
  r <- SyncContainers listing ;;
  match r with
  | Err err => ret (Some err)
  | Ok containers =>
      SyncStats getStats sched containers ;;;
      store_RemoveStaleData ;;;
      ret None
  end.

(** The body of the second loop of [Sync] in service/containers.go: the
    merge of one record, followed by its stats when it is running. *)
Definition mergeAndEnrich (getStats : string → result docker.ContainerStats)
    (c : docker.Container) : M unit :=
  got <- store_Get (docker.ID c) ;;
  let '(stored, exists_) := got in
  if exists_ &&
     (bool_decide (store.State stored = store.StateStarting) ||
      bool_decide (store.State stored = store.StateStopping))
  then ret tt
  else
    store_Update (fromDocker c) ;;;
    if bool_decide (docker.State c = "running") then
      match getStats (docker.ID c) with
      | Err _ => ret tt
      | Ok stats =>
          store_UpdateStats (docker.ID c) (Some (convertStats_inline stats)) ;;;
          ret tt
      end
    else ret tt.

(** [Sync] of service/containers.go. *)
Definition Sync_inline (listing : result (list docker.Container))
    (getStats : string → result docker.ContainerStats) : M (option error) :=
  match listing with
  | Err err => ret (Some err)
  | Ok containers =>
      let cm := containerMap containers in
      stored <- store_List ;;
      forM_ stored (resolveTransition cm) ;;;
      forM_ containers (mergeAndEnrich getStats) ;;;
      store_RemoveStaleData ;;;
      ret None
  end.

(** [StartContainer], given the responses of the client: [seed] is the
    listing asked for when the store has no entry, [cmd] the outcome of
    the start command, [requery] the listing asked for after a failed
    command. *)
Definition StartContainer (id : string)
    (seed : result (list docker.Container)) (cmd : option error)
    (requery : result (list docker.Container)) : M (option error) :=
  got <- store_Get id ;;
  let '(existing, exists_) := got in
  let existing :=
    if exists_ then existing
    else match seed with
         | Ok containers =>
             match findContainer id containers with
             | Some c => seedFrom c
             | None => existing
             end
         | Err _ => existing
         end in
  let existing := store.set_State store.StateStarting existing in
  let existing := store.set_Status "Starting" existing in
  store_Update existing ;;;
  match cmd with
  | Some err =>
      match requery with
      | Ok containers =>
          match findContainer id containers with
          | Some c =>
              store_Update
                (store.set_Status (docker.Status c)
                   (store.set_State (docker.State c) existing))
          | None => ret tt
          end
      | Err _ => ret tt
      end ;;;
      ret (Some err)
  | None => ret None
  end.

Definition StopContainer (id : string)
    (seed : result (list docker.Container)) (cmd : option error)
    (requery : result (list docker.Container)) : M (option error) :=
  got <- store_Get id ;;
  let '(existing, exists_) := got in
  let existing :=
    if exists_ then existing
    else match seed with
         | Ok containers =>
             match findContainer id containers with
             | Some c => seedFrom c
             | None => existing
             end
         | Err _ => existing
         end in
  let existing := store.set_State store.StateStopping existing in
  let existing := store.set_Status "Stopping" existing in
  store_Update existing ;;;
  match cmd with
  | Some err =>
      match requery with
      | Ok containers =>
          match findContainer id containers with
          | Some c =>
              store_Update
                (store.set_Status (docker.Status c)
                   (store.set_State (docker.State c) existing))
          | None => ret tt
          end
      | Err _ => ret tt
      end ;;;
      ret (Some err)
  | None => ret None
  end.

(** [List]: the store's listing, sorted. *)
Definition List : M (list store.ContainerData) :=
  containers <- store_List ;;
  ret (sortContainers containers).

Definition Get (id : string) : M (store.ContainerData * bool) :=
  store_Get id.

End Service.

End service.

(** ** package docker: the client's [GetContainerStats] *)

Module dockerClient.

Import service.

(** [stats.CPUStats.CPUUsage.TotalUsage = v] *)
Definition set_TotalUsage (v : Z) (stats : docker.ContainerStats)
  : docker.ContainerStats :=
  docker.mkContainerStats v (docker.CPUStats_SystemCPUUsage stats)
    (docker.CPUStats_OnlineCPUs stats) (docker.PreCPUStats_TotalUsage stats)
    (docker.PreCPUStats_SystemCPUUsage stats) (docker.MemoryStats_Usage stats)
    (docker.MemoryStats_Limit stats).

(** [GetContainerStats], given what the request and the decoding of its
    body come to: the error of the step that failed, or the decoded
    sample. *)
Definition GetContainerStats (decoded : result docker.ContainerStats)
  : result docker.ContainerStats :=
  match decoded with
  | Err e => Err e
  | Ok stats =>
      let cpuDelta :=
        Float64.of_Z (sub64 (docker.CPUStats_TotalUsage stats)
                            (docker.PreCPUStats_TotalUsage stats)) in
      let systemDelta :=
        Float64.of_Z (sub64 (docker.CPUStats_SystemCPUUsage stats)
                            (docker.PreCPUStats_SystemCPUUsage stats)) in
      if Float64.ltb (Float64.of_Z 0) systemDelta &&
         Float64.ltb (Float64.of_Z 0) cpuDelta then
        let numCPUs := Float64.of_Z (docker.CPUStats_OnlineCPUs stats) in
        let numCPUs :=
          if Float64.eqb numCPUs (Float64.of_Z 0) then Float64.of_Z 1
          else numCPUs in
        Ok (set_TotalUsage
              (Float64.to_uint64
                 (Float64.mul
                    (Float64.mul (Float64.div cpuDelta systemDelta) numCPUs)
                    (Float64.of_Z 100)))
              stats)
      else Ok stats
  end.

End dockerClient.

(** * Properties of the store *)

Section StoreFacts.

Import store.

Implicit Types (s : Store) (c e : ContainerData) (now : time.Time).

Lemma Sub_exact (t u : time.Time) :
  time.minDuration ≤ t - u ≤ time.maxDuration → time.Sub t u = t - u.
Proof. unfold time.Sub. lia. Qed.

Lemma Sub_mono (t t' u : time.Time) :
  t ≤ t' → time.Sub t u ≤ time.Sub t' u.
Proof. unfold time.Sub. lia. Qed.

Lemma stale_true s now c :
  stale s now c = true ↔ ttl s < time.Sub now (Updated c).
Proof. unfold stale. apply bool_decide_eq_true. Qed.

Lemma stale_false s now c :
  stale s now c = false ↔ time.Sub now (Updated c) ≤ ttl s.
Proof. unfold stale. rewrite bool_decide_eq_false. lia. Qed.

Lemma ID_stored_by_Update now c s : ID (stored_by_Update now c s) = ID c.
Proof.
  unfold stored_by_Update.
  destruct (containers s !! ID c); [case_bool_decide|]; reflexivity.
Qed.

Lemma Update_containers now c s :
  containers (Update now c s) =
  <[ID c := stored_by_Update now c s]> (containers s).
Proof.
  unfold Update. cbn [containers].
  fold (stored_by_Update now c s). by rewrite ID_stored_by_Update.
Qed.

Lemma Update_lookup now c s :
  containers (Update now c s) !! ID c = Some (stored_by_Update now c s).
Proof. rewrite Update_containers. apply lookup_insert_eq. Qed.

Lemma Update_lookup_ne now c s k :
  k ≠ ID c → containers (Update now c s) !! k = containers s !! k.
Proof. intros. rewrite Update_containers. by apply lookup_insert_ne. Qed.

Lemma Update_ttl now c s : ttl (Update now c s) = ttl s.
Proof. reflexivity. Qed.

Lemma UpdateStats_ttl now id stats s : ttl (UpdateStats now id stats s).1 = ttl s.
Proof. unfold UpdateStats. by destruct (containers s !! id). Qed.

Lemma UpdateStats_lookup_ne now id stats s k :
  k ≠ id →
  containers (UpdateStats now id stats s).1 !! k = containers s !! k.
Proof.
  intros. unfold UpdateStats. destruct (containers s !! id); [|done].
  cbn. by apply lookup_insert_ne.
Qed.

Lemma UpdateStats_lookup now id stats s :
  containers (UpdateStats now id stats s).1 !! id =
  (λ c, set_Updated now (set_Stats stats c)) <$> containers s !! id.
Proof.
  unfold UpdateStats. destruct (containers s !! id) eqn:E; cbn.
  - by rewrite lookup_insert_eq.
  - by rewrite E.
Qed.

Lemma elem_of_List now s c :
  c ∈ List now s ↔
  (∃ k, containers s !! k = Some c) ∧ stale s now c = false.
Proof.
  unfold List. rewrite list_elem_of_filter, list_elem_of_fmap. split.
  - intros [Hs [[k c'] [-> Hin]]]. split; [|done].
    exists k. by apply elem_of_map_to_list.
  - intros [[k Hk] Hs]. split; [done|].
    exists (k, c). split; [done|]. by apply elem_of_map_to_list.
Qed.

Lemma Get_visible now id s e :
  containers s !! id = Some e → stale s now e = false →
  Get now id s = (e, true).
Proof. intros He Hs. unfold Get. by rewrite He, Hs. Qed.

Lemma Get_stale now id s e :
  containers s !! id = Some e → stale s now e = true →
  Get now id s = (ContainerData_zero, false).
Proof. intros He Hs. unfold Get. by rewrite He, Hs. Qed.

Lemma Get_absent now id s :
  containers s !! id = None → Get now id s = (ContainerData_zero, false).
Proof. intros He. unfold Get. by rewrite He. Qed.

Lemma Get_true now id s c :
  Get now id s = (c, true) →
  containers s !! id = Some c ∧ stale s now c = false.
Proof.
  unfold Get. destruct (containers s !! id) as [e|]; [|done].
  destruct (stale s now e) eqn:Hs; [done|]. by intros [= <-].
Qed.

(** The deleting loop, over any list of keys and entries. *)
Lemma purge_loop_hit (P : ContainerData → bool)
    (l : list (string * ContainerData)) (m : gmap string ContainerData) k c :
  (k, c) ∈ l → P c = true →
  foldr (λ '(id, container) m, if P container then delete id m else m) m l
    !! k = None.
Proof.
  induction l as [|[k' c'] l IH]; intros Hin HP; [by inversion Hin|].
  cbn. apply elem_of_cons in Hin as [[= <- <-]|Hin].
  - rewrite HP. apply lookup_delete_eq.
  - destruct (P c'); [|by apply IH].
    destruct (decide (k' = k)) as [->|Hne].
    + apply lookup_delete_eq.
    + rewrite lookup_delete_ne by done. by apply IH.
Qed.

Lemma purge_loop_miss (P : ContainerData → bool)
    (l : list (string * ContainerData)) (m : gmap string ContainerData) k :
  (∀ c, (k, c) ∈ l → P c = false) →
  foldr (λ '(id, container) m, if P container then delete id m else m) m l
    !! k = m !! k.
Proof.
  induction l as [|[k' c'] l IH]; intros HP; [done|].
  cbn. destruct (P c') eqn:HPc.
  - destruct (decide (k' = k)) as [->|Hne].
    + rewrite (HP c') in HPc; [done|]. apply elem_of_cons; by left.
    + rewrite lookup_delete_ne by done. apply IH.
      intros c Hc. apply HP. apply elem_of_cons; by right.
  - apply IH. intros c Hc. apply HP. apply elem_of_cons; by right.
Qed.

Lemma RemoveStaleData_lookup now s k :
  containers (RemoveStaleData now s) !! k =
  match containers s !! k with
  | Some c => if stale s now c then None else Some c
  | None => None
  end.
Proof.
  unfold RemoveStaleData. cbn [containers].
  destruct (containers s !! k) as [c|] eqn:Hk.
  - destruct (stale s now c) eqn:Hs.
    + apply purge_loop_hit with c; [|done]. by apply elem_of_map_to_list.
    + rewrite purge_loop_miss; [done|].
      intros c' Hc'. apply elem_of_map_to_list in Hc'. congruence.
  - rewrite purge_loop_miss; [done|].
    intros c' Hc'. apply elem_of_map_to_list in Hc'. congruence.
Qed.

Lemma RemoveStaleData_ttl now s : ttl (RemoveStaleData now s) = ttl s.
Proof. reflexivity. Qed.

(** The invariant of the map's keys is kept by every method. *)
Lemma wf_NewStore d : wf (NewStore d).
Proof. intros k c. unfold NewStore. cbn. by rewrite lookup_empty. Qed.

Lemma wf_Update now c s : wf s → wf (Update now c s).
Proof.
  intros Hwf k e. destruct (decide (k = ID c)) as [->|Hne].
  - rewrite Update_lookup. intros [= <-]. apply ID_stored_by_Update.
  - rewrite Update_lookup_ne by done. apply Hwf.
Qed.

Lemma wf_UpdateStats now id stats s : wf s → wf (UpdateStats now id stats s).1.
Proof.
  intros Hwf k e. destruct (decide (k = id)) as [->|Hne].
  - rewrite UpdateStats_lookup. destruct (containers s !! id) as [c|] eqn:E; [|done].
    cbn. intros [= <-]. cbn. by apply Hwf.
  - rewrite UpdateStats_lookup_ne by done. apply Hwf.
Qed.

Lemma wf_RemoveStaleData now s : wf s → wf (RemoveStaleData now s).
Proof.
  intros Hwf k e. rewrite RemoveStaleData_lookup.
  destruct (containers s !! k) as [c|] eqn:E; [|done].
  destruct (stale s now c); [done|]. intros [= <-]. by apply Hwf.
Qed.

End StoreFacts.

(** * The store's contract *)

Section StoreContract.

Import store.

Implicit Types (s : Store) (c e : ContainerData) (now : time.Time).

(** A store with one entry that has stats, and an incoming snapshot of the
    same id in state "exited" that carries stats of its own. *)
Definition stats_old : Stats := mkStats 100 200 Float64.zero 2 5.
Definition stats_new : Stats := mkStats 7 200 Float64.zero 2 9.
Definition entry_a : ContainerData :=
  mkContainerData "a" ["web"] "nginx" "running" "Up 2 hours" 1000 (Some stats_old) 0.
Definition store_a : Store := mkStore {[ "a" := entry_a ]} 30.
Definition snapshot_exited : ContainerData :=
  mkContainerData "a" ["web"] "nginx" "exited" "Exited (0)" 1000 (Some stats_new) 0.

(** C2, as stated, fails: an update whose snapshot is in state "exited"
    does not clear the stats when the snapshot itself carries stats; the
    stored entry then holds the snapshot's stats. *)
Lemma C2_exited_keeps_incoming_stats :
  State snapshot_exited = "exited" ∧
  Stats_ <$> containers (Update 5 snapshot_exited store_a) !! "a"
    = Some (Some stats_new).
Proof. split; [reflexivity|]. vm_compute. reflexivity. Qed.

(** C2, amended: after [Update now c s] the entry stored for [c]'s id has
    the stats of the entry that was there before when there was one and
    [c]'s state is not "exited" (whatever stats [c] carries); when [c]'s
    state is "exited" it has the stats [c] carries, hence none when [c]
    carries none. *)
Theorem C2_Update_stats now c s :
  ∃ e', containers (Update now c s) !! ID c = Some e' ∧
    (∀ existing, containers s !! ID c = Some existing →
       State c ≠ "exited" → Stats_ e' = Stats_ existing) ∧
    (State c = "exited" → Stats_ e' = Stats_ c) ∧
    (State c = "exited" → Stats_ c = None → Stats_ e' = None).
Proof.
  exists (stored_by_Update now c s). split; [apply Update_lookup|].
  unfold stored_by_Update. repeat split.
  - intros existing -> Hne. by rewrite bool_decide_true.
  - intros Hex. destruct (containers s !! ID c); [|done].
    rewrite bool_decide_false; [done|]. by intros H; apply H.
  - intros Hex Hnone. destruct (containers s !! ID c); [|done].
    rewrite bool_decide_false; [done|]. by intros H; apply H.
Qed.

(** C3: an entry written by [Update] at instant [T] is returned by [Get]
    and contained in [List] at every instant [now] with
    [now.Sub(T) <= ttl], and is neither returned nor listed when
    [now.Sub(T) > ttl], purged or not; [RemoveStaleData] at [now] removes
    the entries with [now.Sub(Updated) > ttl] and keeps every other entry
    as it is. *)
Theorem C3_ttl_visibility (T now : time.Time) c s :
  (∃ e, containers (Update T c s) !! ID c = Some e ∧ Updated e = T ∧
     (time.Sub now T ≤ ttl s →
        Get now (ID c) (Update T c s) = (e, true) ∧ e ∈ List now (Update T c s)) ∧
     (ttl s < time.Sub now T →
        (Get now (ID c) (Update T c s)).2 = false ∧ e ∉ List now (Update T c s))) ∧
  (∀ k, containers (RemoveStaleData now s) !! k =
        match containers s !! k with
        | Some e => if bool_decide (ttl s < time.Sub now (Updated e)) then None
                    else Some e
        | None => None
        end).
Proof.
  split; [|intros k; apply RemoveStaleData_lookup].
  exists (stored_by_Update T c s).
  assert (HU : Updated (stored_by_Update T c s) = T) by reflexivity.
  split; [apply Update_lookup|]. split; [done|]. split.
  - intros Hle.
    assert (Hs : stale (Update T c s) now (stored_by_Update T c s) = false).
    { apply stale_false. by rewrite HU, Update_ttl. }
    split.
    + apply Get_visible; [apply Update_lookup|done].
    + apply elem_of_List. split; [|done]. exists (ID c). apply Update_lookup.
  - intros Hlt.
    assert (Hs : stale (Update T c s) now (stored_by_Update T c s) = true).
    { apply stale_true. by rewrite HU, Update_ttl. }
    split.
    + by rewrite (Get_stale _ _ _ _ (Update_lookup T c s) Hs).
    + rewrite elem_of_List. intros [_ Hf]. congruence.
Qed.

(** C9: [UpdateStats] returns false and leaves the store as it is when it
    has no entry for [id]; when it has one it returns true, the entry gets
    the given stats and [Updated = now], its other fields and every other
    entry stay. *)
Theorem C9_UpdateStats now id stats s :
  (containers s !! id = None → UpdateStats now id stats s = (s, false)) ∧
  (∀ c, containers s !! id = Some c →
     ∃ s', UpdateStats now id stats s = (s', true) ∧
       containers s' !! id =
         Some (mkContainerData (ID c) (Names c) (Image c) (State c) (Status c)
                 (Created c) stats now) ∧
       (∀ k, k ≠ id → containers s' !! k = containers s !! k) ∧
       ttl s' = ttl s).
Proof.
  split.
  - intros Hn. unfold UpdateStats. by rewrite Hn.
  - intros c Hc. unfold UpdateStats. rewrite Hc. eexists. split; [reflexivity|].
    cbn. split; [by rewrite lookup_insert_eq|]. split; [|done].
    intros k Hk. by rewrite lookup_insert_ne.
Qed.



End StoreContract.

(** * The service: how its steps act on the store *)

Section ServiceFacts.

Import store service.

Variable clock : nat → time.Time.

Implicit Types (w : World) (e : ContainerData) (d : docker.Container).

(** What the spec calls a sticky state. *)
Definition sticky (state : string) : bool :=
  bool_decide (state = StateStarting) || bool_decide (state = StateStopping).

(** The transition-completion rule: a cached "starting" completes on a
    fresh "running", a cached "stopping" on a fresh "exited". *)
Definition completes (cached fresh : string) : bool :=
  (bool_decide (cached = StateStarting) && bool_decide (fresh = "running")) ||
  (bool_decide (cached = StateStopping) && bool_decide (fresh = "exited")).

(** The fields a listing record determines. *)
Definition listed_fields (e : ContainerData)
  : string * list string * string * string * string * Z :=
  (ID e, Names e, Image e, State e, Status e, Created e).

(** The entry at [id] in the world's store. *)
Definition entry (w : World) (id : string) : option ContainerData :=
  containers (w_store w) !! id.

Lemma completes_sticky cached fresh : completes cached fresh = true → sticky cached = true.
Proof.
  unfold completes, sticky. repeat case_bool_decide; cbn; congruence.
Qed.

Lemma completes_fresh_not_sticky cached fresh :
  completes cached fresh = true → sticky fresh = false.
Proof.
  unfold completes, sticky, StateStarting, StateStopping.
  repeat case_bool_decide; cbn; try congruence; subst; discriminate.
Qed.

Lemma listed_fields_fromDocker d :
  listed_fields (fromDocker d) =
  (docker.ID d, docker.Names d, docker.Image d, docker.State d,
   docker.Status d, docker.Created d).
Proof. reflexivity. Qed.

Lemma listed_fields_stored now c s :
  listed_fields (stored_by_Update now c s) = listed_fields c.
Proof.
  unfold stored_by_Update. destruct (containers s !! ID c); [|done].
  by case_bool_decide.
Qed.

Lemma State_stored_by_Update now c s :
  State (stored_by_Update now c s) = State c.
Proof.
  unfold stored_by_Update. destruct (containers s !! ID c); [|done].
  by case_bool_decide.
Qed.

Lemma Status_stored_by_Update now c s :
  Status (stored_by_Update now c s) = Status c.
Proof.
  unfold stored_by_Update. destruct (containers s !! ID c); [|done].
  by case_bool_decide.
Qed.

(** ** The monad's steps *)

Lemma store_Update_run c w :
  store_Update clock c w =
  (tt, mkWorld (Update (clock (w_tick w)) c (w_store w)) (S (w_tick w))).
Proof. reflexivity. Qed.

Lemma store_UpdateStats_run id stats w :
  store_UpdateStats clock id stats w =
  match entry w id with
  | None => (false, w)
  | Some _ =>
      ((UpdateStats (clock (w_tick w)) id stats (w_store w)).2,
       mkWorld (UpdateStats (clock (w_tick w)) id stats (w_store w)).1
               (S (w_tick w)))
  end.
Proof.
  unfold store_UpdateStats, entry.
  destruct (containers (w_store w) !! id); [|done].
  unfold bind, time_Now. cbn. by destruct (UpdateStats _ _ _ _).
Qed.

(** The clock reading at which [Get] leaves the world. *)
Definition tick_after_Get (id : string) (w : World) : nat :=
  match entry w id with
  | Some _ => S (w_tick w)
  | None => w_tick w
  end.

Lemma store_Get_run id w :
  store_Get clock id w =
  (store.Get (clock (w_tick w)) id (w_store w),
   mkWorld (w_store w) (tick_after_Get id w)).
Proof.
  unfold store_Get, tick_after_Get, entry, store.Get.
  destruct w as [st tk]. cbn [w_store w_tick].
  destruct (containers st !! id) as [e|] eqn:E; [|done].
  unfold bind, time_Now. cbn. by rewrite E.
Qed.

Lemma store_List_run w :
  store_List clock w =
  (store.List (clock (w_tick w)) (w_store w), mkWorld (w_store w) (S (w_tick w))).
Proof. reflexivity. Qed.

Lemma store_RemoveStaleData_run w :
  store_RemoveStaleData clock w =
  (tt, mkWorld (RemoveStaleData (clock (w_tick w)) (w_store w)) (S (w_tick w))).
Proof. reflexivity. Qed.

Lemma bind_run {A B} (m : M A) (k : A → M B) w :
  bind m k w = k (m w).1 (m w).2.
Proof. unfold bind. by destruct (m w). Qed.

(** ** Loops *)

Lemma forM_cons {A} (a : A) l (f : A → M unit) w :
  forM_ (a :: l) f w = forM_ l f (f a w).2.
Proof. cbn. by rewrite bind_run. Qed.

(** A property every step keeps is kept by the loop. *)
Lemma forM_keeps {A} (I : World → Prop) (l : list A) (f : A → M unit) :
  (∀ a w, a ∈ l → I w → I (f a w).2) →
  ∀ w, I w → I (forM_ l f w).2.
Proof.
  induction l as [|a l IH]; intros Hstep w Hw; [done|].
  rewrite forM_cons. apply IH.
  - intros b w' Hb. apply Hstep. apply elem_of_cons; by right.
  - apply Hstep; [apply elem_of_cons; by left|done].
Qed.

(** A property that the step of [a] brings about wherever [I] holds, and
    that every step keeps as it keeps [I], holds after a loop that meets
    [a]. *)
Lemma forM_brings {A} (I K : World → Prop) (l : list A) (f : A → M unit) (a : A) :
  a ∈ l →
  (∀ w, I w → K (f a w).2) →
  (∀ b w, b ∈ l → I w → I (f b w).2) →
  (∀ b w, b ∈ l → K w → K (f b w).2) →
  ∀ w, I w → K (forM_ l f w).2.
Proof.
  induction l as [|b l IH]; intros Hin Ha HI HK w Hw; [by inversion Hin|].
  rewrite forM_cons. apply elem_of_cons in Hin as [->|Hin].
  - apply forM_keeps; [|by apply Ha].
    intros c w' Hc. apply HK. apply elem_of_cons; by right.
  - apply IH; [done..| | |].
    + intros c w' Hc. apply HI. apply elem_of_cons; by right.
    + intros c w' Hc. apply HK. apply elem_of_cons; by right.
    + apply HI; [apply elem_of_cons; by left|done].
Qed.

(** ** The lookup map of the listing *)

Lemma containerMap_acc_Some (l : list docker.Container)
    (m : gmap string docker.Container) k d :
  foldl (λ m c, <[docker.ID c := c]> m) m l !! k = Some d →
  (d ∈ l ∧ docker.ID d = k) ∨ m !! k = Some d.
Proof.
  revert m. induction l as [|c l IH]; intros m H; [by right|].
  cbn in H. apply IH in H as [[Hin Hid]|H].
  - left. split; [apply elem_of_cons; by right|done].
  - destruct (decide (docker.ID c = k)) as [Heq|Hne].
    + rewrite <- Heq, lookup_insert_eq in H. injection H as <-.
      left. split; [apply elem_of_cons; by left|done].
    + rewrite lookup_insert_ne in H by done. by right.
Qed.

Lemma containerMap_Some l k d :
  containerMap l !! k = Some d → d ∈ l ∧ docker.ID d = k.
Proof.
  intros H. apply containerMap_acc_Some in H as [H|H]; [done|].
  by rewrite lookup_empty in H.
Qed.

Lemma containerMap_acc_is_Some (l : list docker.Container)
    (m : gmap string docker.Container) k :
  is_Some (m !! k) ∨ (∃ d, d ∈ l ∧ docker.ID d = k) →
  is_Some (foldl (λ m c, <[docker.ID c := c]> m) m l !! k).
Proof.
  revert m. induction l as [|c l IH]; intros m H.
  - destruct H as [H|(d & Hd & _)]; [done|by inversion Hd].
  - cbn. apply IH. destruct (decide (docker.ID c = k)) as [Heq|Hne].
    + left. rewrite <- Heq, lookup_insert_eq. by eexists.
    + destruct H as [H|(d & Hd & Hid)].
      * left. by rewrite lookup_insert_ne.
      * apply elem_of_cons in Hd as [->|Hd]; [done|]. right. by exists d.
Qed.

Lemma containerMap_only l k d :
  d ∈ l → docker.ID d = k →
  (∀ c, c ∈ l → docker.ID c = k → c = d) →
  containerMap l !! k = Some d.
Proof.
  intros Hin Hid Honly.
  destruct (containerMap_acc_is_Some l ∅ k) as [c Hc]; [right; by exists d|].
  fold (containerMap l) in Hc. rewrite Hc. f_equal.
  apply containerMap_Some in Hc as [? ?]. by apply Honly.
Qed.

Lemma containerMap_None l k :
  (∀ c, c ∈ l → docker.ID c ≠ k) → containerMap l !! k = None.
Proof.
  intros H. destruct (containerMap l !! k) as [d|] eqn:E; [|done].
  apply containerMap_Some in E as [Hin Hid]. by destruct (H d Hin).
Qed.

End ServiceFacts.

(** * One step of a pass, seen from one key of the store *)

Section Steps.

Import store service.

Variable clock : nat → time.Time.

Implicit Types (w : World) (e : ContainerData) (d c : docker.Container).

Lemma resolveTransition_idle cm stored w :
  (∀ d, cm !! ID stored = Some d →
        completes (State stored) (docker.State d) = false) →
  resolveTransition clock cm stored w = (tt, w).
Proof.
  intros H. unfold resolveTransition, lookupContainer.
  destruct (cm !! ID stored) as [d|]; cbn.
  - specialize (H d eq_refl). unfold completes in H.
    repeat case_bool_decide; cbn in *; try done; congruence.
  - by repeat case_bool_decide.
Qed.

Lemma resolveTransition_fire cm stored w d :
  cm !! ID stored = Some d →
  completes (State stored) (docker.State d) = true →
  resolveTransition clock cm stored w = store_Update clock (fromDocker d) w.
Proof.
  intros Hd H. unfold resolveTransition, lookupContainer. rewrite Hd. cbn.
  unfold completes, StateStarting, StateStopping in *.
  repeat case_bool_decide; cbn in *; try done; congruence.
Qed.

(** The first loop's step is either idle or the update with the listing's
    record of the same id. *)
Lemma resolveTransition_cases cm stored w :
  resolveTransition clock cm stored w = (tt, w) ∨
  ∃ d, cm !! ID stored = Some d ∧
       completes (State stored) (docker.State d) = true ∧
       resolveTransition clock cm stored w = store_Update clock (fromDocker d) w.
Proof.
  destruct (cm !! ID stored) as [d|] eqn:Hd.
  - destruct (completes (State stored) (docker.State d)) eqn:Hc.
    + right. exists d. split; [done|]. split; [done|].
      by apply resolveTransition_fire.
    + left. apply resolveTransition_idle. intros d' Hd'. congruence.
  - left. apply resolveTransition_idle. intros d' Hd'. congruence.
Qed.

(** The second loop's step either skips or updates with the record. *)
Lemma mergeContainer_cases c w :
  let w' := mkWorld (w_store w) (tick_after_Get (docker.ID c) w) in
  (mergeContainer clock c w = (tt, w') ∧
   ∃ e, entry w (docker.ID c) = Some e ∧
        stale (w_store w) (clock (w_tick w)) e = false ∧
        sticky (State e) = true) ∨
  (mergeContainer clock c w = store_Update clock (fromDocker c) w' ∧
   ∀ e, entry w (docker.ID c) = Some e →
        stale (w_store w) (clock (w_tick w)) e = false →
        sticky (State e) = false).
Proof.
  cbn zeta. unfold mergeContainer. rewrite bind_run, store_Get_run. cbn [fst snd].
  unfold entry, store.Get.
  destruct (containers (w_store w) !! docker.ID c) as [e|];
    [|right; split; [reflexivity|intros ? [=]]].
  destruct (stale (w_store w) (clock (w_tick w)) e) eqn:Hs.
  { right. split; [reflexivity|]. intros ? [= <-] ?. congruence. }
  cbn [andb]. fold (sticky (State e)).
  destruct (sticky (State e)) eqn:Hst.
  - left. split; [reflexivity|]. by exists e.
  - right. split; [reflexivity|]. by intros ? [= <-].
Qed.

(** The merge step of service/containers.go either skips, or updates with
    the record and then possibly stores stats under the record's id. *)
Lemma mergeAndEnrich_cases getStats c w :
  let w' := mkWorld (w_store w) (tick_after_Get (docker.ID c) w) in
  let u := (store_Update clock (fromDocker c) w').2 in
  (mergeAndEnrich clock getStats c w = (tt, w') ∧
   ∃ e, entry w (docker.ID c) = Some e ∧
        stale (w_store w) (clock (w_tick w)) e = false ∧
        sticky (State e) = true) ∨
  (((mergeAndEnrich clock getStats c w).2 = u ∨
    ∃ st, (mergeAndEnrich clock getStats c w).2 =
          mkWorld (UpdateStats (clock (w_tick u)) (docker.ID c) (Some st)
                     (w_store u)).1 (S (w_tick u))) ∧
   ∀ e, entry w (docker.ID c) = Some e →
        stale (w_store w) (clock (w_tick w)) e = false →
        sticky (State e) = false).
Proof.
  cbn zeta.
  set (w' := mkWorld (w_store w) (tick_after_Get (docker.ID c) w)).
  assert (Hrun :
    (let u := (store_Update clock (fromDocker c) w').2 in
     (bind (store_Update clock (fromDocker c))
        (λ _, if bool_decide (docker.State c = "running")
              then match getStats (docker.ID c) with
                   | Ok stats =>
                       bind (store_UpdateStats clock (docker.ID c)
                               (Some (convertStats_inline stats))) (λ _, ret tt)
                   | Err _ => ret tt
                   end
              else ret tt) w').2 = u ∨
     ∃ st, (bind (store_Update clock (fromDocker c))
        (λ _, if bool_decide (docker.State c = "running")
              then match getStats (docker.ID c) with
                   | Ok stats =>
                       bind (store_UpdateStats clock (docker.ID c)
                               (Some (convertStats_inline stats))) (λ _, ret tt)
                   | Err _ => ret tt
                   end
              else ret tt) w').2 =
          mkWorld (UpdateStats (clock (w_tick u)) (docker.ID c) (Some st)
                     (w_store u)).1 (S (w_tick u)))).
  { cbn zeta. rewrite bind_run. cbn [fst].
    set (u := (store_Update clock (fromDocker c) w').2).
    case_bool_decide; [|by left].
    destruct (getStats (docker.ID c)) as [stats|err]; [|by left].
    rewrite bind_run, store_UpdateStats_run.
    destruct (entry u (docker.ID c)); [|left; by destruct u].
    right. by eexists. }
  unfold mergeAndEnrich. rewrite bind_run, store_Get_run. cbn [fst snd].
  fold w'. unfold entry, store.Get.
  destruct (containers (w_store w) !! docker.ID c) as [e|];
    [|right; split; [exact Hrun|intros ? [=]]].
  destruct (stale (w_store w) (clock (w_tick w)) e) eqn:Hs.
  { right. split; [exact Hrun|]. intros ? [= <-] ?. congruence. }
  cbn [andb]. fold (sticky (State e)).
  destruct (sticky (State e)) eqn:Hst.
  - left. split; [reflexivity|]. by exists e.
  - right. split; [exact Hrun|]. by intros ? [= <-].
Qed.

(** A stats goroutine either leaves the store alone or stores stats under
    its container's id. *)
Lemma statsWorker_cases getStats c w :
  statsWorker clock getStats c w = (tt, w) ∨
  ∃ stats, getStats (docker.ID c) = Ok stats ∧
     statsWorker clock getStats c w =
     (tt, mkWorld (UpdateStats (clock (w_tick w)) (docker.ID c)
                     (Some (convertStats stats)) (w_store w)).1
                  (S (w_tick w))).
Proof.
  unfold statsWorker. destruct (getStats (docker.ID c)) as [stats|err]; [|by left].
  rewrite bind_run, store_UpdateStats_run.
  destruct (entry w (docker.ID c)); [|by left].
  right. by exists stats.
Qed.

Lemma entry_Update now (x : ContainerData) st tk k :
  entry (mkWorld (Update now x st) tk) k =
  if decide (k = ID x) then Some (stored_by_Update now x st)
  else containers st !! k.
Proof.
  unfold entry. cbn. case_decide as H.
  - subst. apply Update_lookup.
  - by apply Update_lookup_ne.
Qed.

Lemma entry_UpdateStats now k0 stats st tk k :
  entry (mkWorld (UpdateStats now k0 stats st).1 tk) k =
  if decide (k = k0)
  then (λ x, set_Updated now (set_Stats stats x)) <$> containers st !! k
  else containers st !! k.
Proof.
  unfold entry. cbn. case_decide as H.
  - subst. apply UpdateStats_lookup.
  - by apply UpdateStats_lookup_ne.
Qed.

End Steps.

(** * A pass, seen from one sticky entry *)

Section Reconcile.

Import store service.

Variable clock : nat → time.Time.
Variable sched : list docker.Container → list docker.Container.
Variable getStats : string → result docker.ContainerStats.
Variable listing : list docker.Container.
Variable id : string.
Variable e : ContainerData.
Variable ttl0 : time.Duration.

Hypothesis Hsched : ∀ l, sched l ≡ₚ l.
(** The entry is within its TTL at every instant the pass reads. *)
Hypothesis Hvis : ∀ n, time.Sub (clock n) (Updated e) ≤ ttl0.
(** The instants the pass reads are within one TTL of each other. *)
Hypothesis Hpass : ∀ i j, time.Sub (clock j) (clock i) ≤ ttl0.

Implicit Types (w : World) (d c : docker.Container).

(** The entry of [id] still has the listed fields of [e]; it is [e] itself
    when [exact] holds. *)
Definition kept (exact : Prop) (w : World) : Prop :=
  ttl (w_store w) = ttl0 ∧
  ∃ e', entry w id = Some e' ∧ listed_fields e' = listed_fields e ∧
        (Updated e' = Updated e ∨ ∃ i, Updated e' = clock i) ∧
        (exact → e' = e).

(** The entry of [id] has the listed fields of the record [d]. *)
Definition refreshed (d : docker.Container) (w : World) : Prop :=
  ttl (w_store w) = ttl0 ∧
  ∃ e', entry w id = Some e' ∧
        listed_fields e' = listed_fields (fromDocker d) ∧
        ∃ i, Updated e' = clock i.

Lemma kept_fresh exact w e' n :
  kept exact w → entry w id = Some e' →
  stale (w_store w) (clock n) e' = false ∧ State e' = State e.
Proof.
  intros [Httl (e1 & He1 & Hf & HU & _)] He'.
  rewrite He1 in He'. injection He' as <-. split.
  - apply stale_false. rewrite Httl. destruct HU as [->|[i ->]]; auto.
  - unfold listed_fields in Hf. congruence.
Qed.

Lemma kept_tick exact st tk tk' :
  kept exact (mkWorld st tk) → kept exact (mkWorld st tk').
Proof. done. Qed.

Lemma refreshed_tick d st tk tk' :
  refreshed d (mkWorld st tk) → refreshed d (mkWorld st tk').
Proof. done. Qed.

(** An update under another key changes neither property. *)
Lemma kept_Update_other exact now x st tk tk' :
  ID x ≠ id → kept exact (mkWorld st tk) →
  kept exact (mkWorld (Update now x st) tk').
Proof.
  intros Hne [Httl (e' & He' & H)]. split; [done|]. exists e'.
  split; [|done]. rewrite entry_Update. by rewrite decide_False.
Qed.

Lemma refreshed_Update_other d now x st tk tk' :
  ID x ≠ id → refreshed d (mkWorld st tk) →
  refreshed d (mkWorld (Update now x st) tk').
Proof.
  intros Hne [Httl (e' & He' & H)]. split; [done|]. exists e'.
  split; [|done]. rewrite entry_Update. by rewrite decide_False.
Qed.

Lemma refreshed_Update d n st tk :
  docker.ID d = id → ttl st = ttl0 →
  refreshed d (mkWorld (Update (clock n) (fromDocker d) st) tk).
Proof.
  intros Hid Httl. split; [done|].
  exists (stored_by_Update (clock n) (fromDocker d) st). split.
  - rewrite entry_Update. by rewrite decide_True.
  - split; [apply listed_fields_stored|]. by exists n.
Qed.

(** ** Phase 2, transition resolution *)

Lemma kept_resolveTransition exact cm stored w :
  (∀ k d, cm !! k = Some d → docker.ID d = k) →
  (∀ d, cm !! id = Some d → completes (State e) (docker.State d) = false) →
  (ID stored = id → stored = e) →
  kept exact w → kept exact (resolveTransition clock cm stored w).2.
Proof.
  intros Hcm Hno Hst Hk.
  destruct (resolveTransition_cases clock cm stored w) as [->|(d & Hd & Hc & ->)];
    [done|].
  rewrite store_Update_run. cbn [snd]. destruct w as [st tk].
  apply kept_Update_other with tk; [|done]. cbn.
  intros Hid. rewrite (Hcm _ _ Hd) in Hid. specialize (Hst Hid). subst stored.
  rewrite Hid in Hd. rewrite (Hno d Hd) in Hc. done.
Qed.

Lemma refreshed_resolveTransition d cm stored w :
  (∀ k d', cm !! k = Some d' → docker.ID d' = k) →
  cm !! id = Some d →
  refreshed d w → refreshed d (resolveTransition clock cm stored w).2.
Proof.
  intros Hcm Hd Hk.
  destruct (resolveTransition_cases clock cm stored w) as [->|(d' & Hd' & Hc & ->)];
    [done|].
  rewrite store_Update_run. cbn [snd]. destruct w as [st tk].
  destruct (decide (ID stored = id)) as [Hid|Hne].
  - rewrite Hid, Hd in Hd'. injection Hd' as <-.
    apply refreshed_Update; [by apply Hcm in Hd|apply Hk].
  - apply refreshed_Update_other with tk; [|done]. cbn. by rewrite (Hcm _ _ Hd').
Qed.

Lemma ttl_resolveTransition cm stored w :
  ttl (w_store (resolveTransition clock cm stored w).2) = ttl (w_store w).
Proof.
  by destruct (resolveTransition_cases clock cm stored w) as [->|(d & _ & _ & ->)].
Qed.

(** ** Phase 3, bulk merge *)

Lemma kept_mergeContainer exact c w :
  sticky (State e) = true →
  kept exact w → kept exact (mergeContainer clock c w).2.
Proof.
  intros Hsticky Hk. destruct w as [st tk].
  destruct (mergeContainer_cases clock c (mkWorld st tk)) as [[-> _]|[-> Hns]];
    cbn [snd w_store w_tick] in *.
  - by apply kept_tick with tk.
  - rewrite store_Update_run. cbn [snd w_store w_tick].
    apply kept_Update_other with tk; [|done]. cbn. intros Hid.
    destruct Hk as [Httl (e' & He' & Hrest)].
    destruct (kept_fresh exact (mkWorld st tk) e' tk) as [Hs HS];
      [by split; [|exists e']|done|].
    rewrite Hid in Hns. specialize (Hns e' He' Hs). congruence.
Qed.

Lemma refreshed_mergeContainer d c w :
  docker.ID d = id →
  (docker.ID c = id → c = d) →
  refreshed d w → refreshed d (mergeContainer clock c w).2.
Proof.
  intros Hid Honly Hk. destruct w as [st tk].
  destruct (mergeContainer_cases clock c (mkWorld st tk)) as [[-> _]|[-> _]];
    cbn [snd w_store w_tick] in *.
  - by apply refreshed_tick with tk.
  - rewrite store_Update_run. cbn [snd w_store w_tick].
    destruct (decide (docker.ID c = id)) as [Hc|Hne].
    + rewrite (Honly Hc). apply refreshed_Update; [done|apply Hk].
    + by apply refreshed_Update_other with tk.
Qed.

(** ** Phase 4, enrichment *)

Lemma kept_statsWorker (exact : Prop) c w :
  (exact → docker.ID c ≠ id) →
  kept exact w → kept exact (statsWorker clock getStats c w).2.
Proof.
  intros Hex Hk. destruct w as [st tk].
  destruct (statsWorker_cases clock getStats c (mkWorld st tk)) as [->|(s & _ & ->)];
    [done|].
  cbn [snd w_store w_tick]. destruct Hk as [Httl (e' & He' & Hf & HU & Hx)].
  split; [cbn; by rewrite UpdateStats_ttl|]. rewrite entry_UpdateStats.
  case_decide as Hid.
  - unfold entry in He'. cbn in He'. rewrite He'. cbn. eexists. split; [done|].
    split; [done|]. split; [right; by eexists|].
    intros HX. by destruct (Hex HX).
  - exists e'. done.
Qed.

Lemma refreshed_statsWorker d c w :
  refreshed d w → refreshed d (statsWorker clock getStats c w).2.
Proof.
  intros Hk. destruct w as [st tk].
  destruct (statsWorker_cases clock getStats c (mkWorld st tk)) as [->|(s & _ & ->)];
    [done|].
  cbn [snd w_store w_tick]. destruct Hk as [Httl (e' & He' & Hf & HU)].
  split; [cbn; by rewrite UpdateStats_ttl|]. rewrite entry_UpdateStats.
  case_decide as Hid.
  - unfold entry in He'. cbn in He'. rewrite He'. cbn. eexists. split; [done|].
    split; [done|]. by eexists.
  - exists e'. done.
Qed.

(** ** Merge and enrichment in one loop (service/containers.go) *)

Lemma kept_UpdateStats (exact : Prop) n k0 stats st tk tk' :
  (exact → k0 ≠ id) →
  kept exact (mkWorld st tk) →
  kept exact (mkWorld (UpdateStats (clock n) k0 stats st).1 tk').
Proof.
  intros Hex [Httl (e' & He' & Hf & HU & Hx)].
  split; [cbn; by rewrite UpdateStats_ttl|]. rewrite entry_UpdateStats.
  case_decide as Hid.
  - unfold entry in He'. cbn in He'. rewrite He'. cbn. eexists. split; [done|].
    split; [done|]. split; [right; by eexists|].
    intros HX. by destruct (Hex HX).
  - exists e'. done.
Qed.

Lemma refreshed_UpdateStats d n k0 stats st tk tk' :
  refreshed d (mkWorld st tk) →
  refreshed d (mkWorld (UpdateStats (clock n) k0 stats st).1 tk').
Proof.
  intros [Httl (e' & He' & Hf & HU)].
  split; [cbn; by rewrite UpdateStats_ttl|]. rewrite entry_UpdateStats.
  case_decide as Hid.
  - unfold entry in He'. cbn in He'. rewrite He'. cbn. eexists. split; [done|].
    split; [done|]. by eexists.
  - exists e'. done.
Qed.

Lemma kept_mergeAndEnrich exact c w :
  sticky (State e) = true →
  kept exact w → kept exact (mergeAndEnrich clock getStats c w).2.
Proof.
  intros Hsticky Hk. destruct w as [st tk].
  destruct (mergeAndEnrich_cases clock getStats c (mkWorld st tk))
    as [[-> _]|[Hrun Hns]]; cbn [snd w_store w_tick] in *.
  - by apply kept_tick with tk.
  - assert (docker.ID c ≠ id) as Hne.
    { intros Hid. destruct Hk as [Httl (e' & He' & Hrest)].
      destruct (kept_fresh exact (mkWorld st tk) e' tk) as [Hs HS];
        [by split; [|exists e']|done|].
      rewrite Hid in Hns. specialize (Hns e' He' Hs). congruence. }
    rewrite store_Update_run in Hrun. cbn [snd w_store w_tick] in Hrun.
    destruct Hrun as [->|[s ->]].
    + by apply kept_Update_other with tk.
    + apply kept_UpdateStats with 0%nat; [done|].
      by apply kept_Update_other with tk.
Qed.

Lemma refreshed_mergeAndEnrich d c w :
  docker.ID d = id →
  (docker.ID c = id → c = d) →
  refreshed d w → refreshed d (mergeAndEnrich clock getStats c w).2.
Proof.
  intros Hid Honly Hk. destruct w as [st tk].
  destruct (mergeAndEnrich_cases clock getStats c (mkWorld st tk))
    as [[-> _]|[Hrun _]]; cbn [snd w_store w_tick] in *.
  - by apply refreshed_tick with tk.
  - rewrite store_Update_run in Hrun. cbn [snd w_store w_tick] in Hrun.
    assert (refreshed d
              (mkWorld (Update (clock (tick_after_Get (docker.ID c) (mkWorld st tk)))
                          (fromDocker c) st) 0)) as Hu.
    { destruct (decide (docker.ID c = id)) as [Hc|Hne].
      - rewrite (Honly Hc). apply refreshed_Update; [done|apply Hk].
      - by apply refreshed_Update_other with tk. }
    destruct Hrun as [->|[s ->]].
    + by apply refreshed_tick with 0%nat.
    + by apply refreshed_UpdateStats with 0%nat.
Qed.

(** ** Phase 5, purge *)

Lemma kept_RemoveStaleData exact w :
  kept exact w → kept exact (store_RemoveStaleData clock w).2.
Proof.
  intros Hk. destruct w as [st tk]. rewrite store_RemoveStaleData_run.
  cbn [snd w_store w_tick]. pose proof Hk as [Httl (e' & He' & Hrest)].
  split; [done|]. exists e'. split; [|done].
  unfold entry in *. cbn [w_store] in *. rewrite RemoveStaleData_lookup, He'.
  destruct (kept_fresh exact (mkWorld st tk) e' tk Hk He') as [Hs _].
  cbn [w_store] in Hs. by rewrite Hs.
Qed.

Lemma refreshed_RemoveStaleData d w :
  refreshed d w → refreshed d (store_RemoveStaleData clock w).2.
Proof.
  intros Hk. destruct w as [st tk]. rewrite store_RemoveStaleData_run.
  cbn [snd w_store w_tick]. pose proof Hk as [Httl (e' & He' & Hf & i & HU)].
  split; [done|]. exists e'. split; [|by eauto].
  unfold entry in *. cbn [w_store] in *. rewrite RemoveStaleData_lookup, He'.
  assert (stale st (clock tk) e' = false) as ->; [|done].
  apply stale_false. rewrite HU, Httl. apply Hpass.
Qed.

End Reconcile.

(** * The pass as a whole *)

Section Pass.

Import store service.

Variable clock : nat → time.Time.

Implicit Types (w : World) (e : ContainerData) (d c : docker.Container).

(** The worlds between the phases of a pass whose listing succeeded. *)
Definition after_transitions (listing : list docker.Container) (w : World) : World :=
  (forM_ (store.List (clock (w_tick w)) (w_store w))
         (resolveTransition clock (containerMap listing))
         (mkWorld (w_store w) (S (w_tick w)))).2.

Definition after_merge (listing : list docker.Container) (w : World) : World :=
  (forM_ listing (mergeContainer clock) (after_transitions listing w)).2.

Definition after_stats (getStats : string → result docker.ContainerStats)
    (sched : list docker.Container → list docker.Container)
    (listing : list docker.Container) (w : World) : World :=
  (forM_ (sched (filter (λ c, docker.State c = "running") listing))
         (statsWorker clock getStats) (after_merge listing w)).2.

Lemma SyncContainers_run listing w :
  SyncContainers clock (Ok listing) w = (Ok listing, after_merge listing w).
Proof.
  unfold SyncContainers, after_merge, after_transitions.
  rewrite bind_run, store_List_run. cbn [fst snd].
  rewrite bind_run. cbn [fst snd]. rewrite bind_run. reflexivity.
Qed.

Lemma Sync_run listing getStats sched w :
  Sync clock (Ok listing) getStats sched w =
  (None, (store_RemoveStaleData clock (after_stats getStats sched listing w)).2).
Proof.
  unfold Sync. rewrite bind_run, SyncContainers_run. cbn [fst snd].
  unfold SyncStats, after_stats. rewrite bind_run. cbn [fst snd].
  rewrite bind_run. reflexivity.
Qed.

Definition after_merge_inline (getStats : string → result docker.ContainerStats)
    (listing : list docker.Container) (w : World) : World :=
  (forM_ listing (mergeAndEnrich clock getStats) (after_transitions listing w)).2.

Lemma Sync_inline_run listing getStats w :
  Sync_inline clock (Ok listing) getStats w =
  (None, (store_RemoveStaleData clock (after_merge_inline getStats listing w)).2).
Proof.
  unfold Sync_inline, after_merge_inline, after_transitions.
  rewrite bind_run, store_List_run. cbn [fst snd].
  rewrite bind_run. cbn [fst snd]. rewrite bind_run. cbn [fst snd].
  rewrite bind_run. reflexivity.
Qed.

End Pass.

(** * Sticky transitions (C1) *)

Section StickyTransitions.

Import store service.

(** A store whose only entry was marked "starting" at instant 0, with a
    TTL of 30; a listing that reports the same id as "exited"; and a pass
    that runs at instant 100, when the entry is stale but not yet purged. *)
Definition entry_starting : ContainerData :=
  mkContainerData "a" ["web"] "nginx" "starting" "Starting" 1000 None 0.
Definition world_starting : World :=
  mkWorld (Update 0 entry_starting (NewStore 30)) 0.
Definition record_exited : docker.Container :=
  docker.mkContainer "a" ["web"] "nginx" "exited" "Exited (1)" 1000.
Definition record_running : docker.Container :=
  docker.mkContainer "a" ["web"] "nginx" "running" "Up 1 second" 1000.
Definition no_stats : string → result docker.ContainerStats :=
  λ _, Err "no stats".

(** C1, as stated, fails: a cached "starting" entry that is stale when the
    pass runs is not met by the first loop ([List] hides it) and is not
    protected in the second ([Get] hides it), so the bulk merge overwrites
    it with a listing record whose state is not "running"; in either form
    of [Sync]. *)
Lemma C1_stale_sticky_entry_overwritten :
  entry world_starting "a" = Some entry_starting ∧
  State entry_starting = StateStarting ∧
  docker.State record_exited ≠ "running" ∧
  entry (Sync (λ _, 100) (Ok [record_exited]) no_stats (λ l, l)
           world_starting).2 "a"
    = Some (mkContainerData "a" ["web"] "nginx" "exited" "Exited (1)" 1000 None 100) ∧
  entry (Sync_inline (λ _, 100) (Ok [record_exited]) no_stats world_starting).2 "a"
    = Some (mkContainerData "a" ["web"] "nginx" "exited" "Exited (1)" 1000 None 100).
Proof.
  split; [vm_compute; reflexivity|]. split; [reflexivity|].
  split; [discriminate|]. split; vm_compute; reflexivity.
Qed.

(** C1, amended.  Take a pass whose listing succeeded, run from a store
    with the key invariant, and a cached entry [e] of [id] in a sticky
    state that is within its TTL at every instant the pass reads, the
    instants of the pass being within one TTL of each other.
    - If no listing record of [id] completes the transition (none is
      "running" for a cached "starting", none is "exited" for a cached
      "stopping"; in particular if the listing has no record of [id]), the
      entry keeps its id, names, image, state, status and creation time,
      and is [e] itself, stats and [Updated] included, when no record of
      [id] is "running" (always so for a cached "starting").
    - If the listing's one record [d] of [id] completes the transition,
      the entry has [d]'s id, names, image, state, status and creation
      time after the pass.
    - The bulk merge leaves the store as it is at a record whose entry is
      sticky and within its TTL. *)
Theorem C1_sticky_transitions (clock : nat → time.Time)
    (sched : list docker.Container → list docker.Container)
    (getStats : string → result docker.ContainerStats)
    (listing : list docker.Container) (id : string) (e : ContainerData)
    (w0 : World) :
  (∀ l, sched l ≡ₚ l) →
  wf (w_store w0) →
  entry w0 id = Some e →
  sticky (State e) = true →
  (∀ n, time.Sub (clock n) (Updated e) ≤ ttl (w_store w0)) →
  (∀ i j, time.Sub (clock j) (clock i) ≤ ttl (w_store w0)) →
  let w' := (Sync clock (Ok listing) getStats sched w0).2 in
  ((∀ c, c ∈ listing → docker.ID c = id →
         completes (State e) (docker.State c) = false) →
   ∃ e', entry w' id = Some e' ∧ listed_fields e' = listed_fields e ∧
         ((∀ c, c ∈ listing → docker.ID c = id → docker.State c ≠ "running") →
          e' = e)) ∧
  (∀ d, d ∈ listing → docker.ID d = id →
        (∀ c, c ∈ listing → docker.ID c = id → c = d) →
        completes (State e) (docker.State d) = true →
   ∃ e', entry w' id = Some e' ∧
         listed_fields e' =
         (docker.ID d, docker.Names d, docker.Image d, docker.State d,
          docker.Status d, docker.Created d)) ∧
  (∀ w c e1, entry w (docker.ID c) = Some e1 → sticky (State e1) = true →
             time.Sub (clock (w_tick w)) (Updated e1) ≤ ttl (w_store w) →
             w_store (mergeContainer clock c w).2 = w_store w).
Proof.
  intros Hsched Hwf He Hsticky Hvis Hpass w'. subst w'.
  rewrite Sync_run. cbn [snd].
  set (ttl0 := ttl (w_store w0)) in *.
  set (w1 := mkWorld (w_store w0) (S (w_tick w0))).
  assert (Hcm : ∀ k d, containerMap listing !! k = Some d → docker.ID d = k).
  { intros k d Hd. by apply containerMap_Some in Hd as [_ ?]. }
  assert (Hstored : ∀ stored,
            stored ∈ store.List (clock (w_tick w0)) (w_store w0) →
            ID stored = id → stored = e).
  { intros stored Hin Hid. apply elem_of_List in Hin as [[k Hk] _].
    rewrite <- (Hwf _ _ Hk), Hid in Hk. unfold entry in He. congruence. }
  assert (Hrun : ∀ c,
            c ∈ sched (filter (λ c, docker.State c = "running") listing) →
            c ∈ listing ∧ docker.State c = "running").
  { intros c Hc. rewrite Hsched in Hc. by apply list_elem_of_filter in Hc as [? ?]. }
  split; [|split].
  - intros Hno.
    set (exact := ∀ c, c ∈ listing → docker.ID c = id → docker.State c ≠ "running").
    assert (kept clock id e ttl0 exact
              (store_RemoveStaleData clock
                 (after_stats clock getStats sched listing w0)).2) as Hk.
    { apply kept_RemoveStaleData; try assumption.
      unfold after_stats. apply forM_keeps.
      { intros c w Hc. apply kept_statsWorker; try assumption.
        intros Hex Hid. apply Hrun in Hc as [Hin Hst]. by apply (Hex c). }
      unfold after_merge. apply forM_keeps.
      { intros c w _. apply kept_mergeContainer; assumption. }
      unfold after_transitions. apply forM_keeps.
      { intros stored w Hin.
        apply kept_resolveTransition; try assumption; [|by apply Hstored].
        intros d Hd. apply containerMap_Some in Hd as [? ?]. by apply Hno. }
      split; [done|]. exists e. split; [done|]. split; [done|]. by split; [left|]. }
    destruct Hk as [_ (e' & He' & Hf & _ & Hx)]. by exists e'.
  - intros d Hd Hid Honly Hc.
    assert (Hcmd : containerMap listing !! id = Some d) by by apply containerMap_only.
    assert (refreshed clock id ttl0 d
              (store_RemoveStaleData clock
                 (after_stats clock getStats sched listing w0)).2) as Hk.
    { apply refreshed_RemoveStaleData; try assumption.
      unfold after_stats. apply forM_keeps.
      { intros c w _. apply refreshed_statsWorker. }
      unfold after_merge. apply forM_keeps.
      { intros c w Hin. apply refreshed_mergeContainer; try assumption.
        intros Hcid. by apply Honly. }
      unfold after_transitions.
      apply (forM_brings (λ w, ttl (w_store w) = ttl0)) with e.
      - apply elem_of_List. split; [by exists id|]. apply stale_false. apply Hvis.
      - intros [st tk] Httl.
        rewrite (resolveTransition_fire clock _ e _ d);
          [|by rewrite (Hwf _ _ He)|done].
        rewrite store_Update_run. cbn [snd]. by apply refreshed_Update.
      - intros stored w _ Httl. by rewrite ttl_resolveTransition.
      - intros stored w _. apply refreshed_resolveTransition; assumption.
      - done. }
    destruct Hk as [_ (e' & He' & Hf & _)]. by exists e'.
  - intros w c e1 He1 Hst Hle.
    destruct (mergeContainer_cases clock c w) as [[-> _]|[_ Hns]]; [done|].
    apply stale_false in Hle. specialize (Hns e1 He1 Hle). congruence.
Qed.

(** The pass of the example at instant 10, within the TTL of the entry:
    with a listing that reports the container as running the entry gets
    the record's fields; with a listing that reports it as exited the
    entry stays as it is. *)
Lemma C1_sticky_transitions_witness :
  (∃ e', entry (Sync (λ _, 10) (Ok [record_running]) no_stats (λ l, l)
                  world_starting).2 "a" = Some e' ∧
         listed_fields e' = ("a", ["web"], "nginx", "running", "Up 1 second", 1000)) ∧
  (∃ e', entry (Sync (λ _, 10) (Ok [record_exited]) no_stats (λ l, l)
                  world_starting).2 "a" = Some e' ∧
         e' = entry_starting).
Proof.
  split.
  - destruct (C1_sticky_transitions (λ _, 10) (λ l, l) no_stats [record_running] "a"
                entry_starting world_starting) as (_ & Hfresh & _).
    + reflexivity.
    + apply wf_Update, wf_NewStore.
    + vm_compute. reflexivity.
    + reflexivity.
    + intros n. vm_compute. discriminate.
    + intros i j. vm_compute. discriminate.
    + apply (Hfresh record_running).
      * constructor.
      * reflexivity.
      * intros c Hc _. apply list_elem_of_singleton in Hc. done.
      * reflexivity.
  - destruct (C1_sticky_transitions (λ _, 10) (λ l, l) no_stats [record_exited] "a"
                entry_starting world_starting) as (Hkept & _ & _).
    + reflexivity.
    + apply wf_Update, wf_NewStore.
    + vm_compute. reflexivity.
    + reflexivity.
    + intros n. vm_compute. discriminate.
    + intros i j. vm_compute. discriminate.
    + destruct Hkept as (e' & He' & _ & Hsame).
      * intros c Hc _. apply list_elem_of_singleton in Hc. by subst c.
      * exists e'. split; [done|]. apply Hsame.
        intros c Hc _. apply list_elem_of_singleton in Hc. by subst c.
Defined.

(** The same for [Sync] of service/containers.go, whose merge loop skips
    the stats of a sticky entry as well: a sticky entry within its TTL
    whose transition no listing record completes is left as it is, stats
    and [Updated] included; one whose transition the listing's record
    completes gets the record's listed fields. *)
Theorem Sync_inline_sticky_transitions (clock : nat → time.Time)
    (getStats : string → result docker.ContainerStats)
    (listing : list docker.Container) (id : string) (e : ContainerData)
    (w0 : World) :
  wf (w_store w0) →
  entry w0 id = Some e →
  sticky (State e) = true →
  (∀ n, time.Sub (clock n) (Updated e) ≤ ttl (w_store w0)) →
  (∀ i j, time.Sub (clock j) (clock i) ≤ ttl (w_store w0)) →
  let w' := (Sync_inline clock (Ok listing) getStats w0).2 in
  ((∀ c, c ∈ listing → docker.ID c = id →
         completes (State e) (docker.State c) = false) →
   entry w' id = Some e) ∧
  (∀ d, d ∈ listing → docker.ID d = id →
        (∀ c, c ∈ listing → docker.ID c = id → c = d) →
        completes (State e) (docker.State d) = true →
   ∃ e', entry w' id = Some e' ∧
         listed_fields e' =
         (docker.ID d, docker.Names d, docker.Image d, docker.State d,
          docker.Status d, docker.Created d)).
Proof.
  intros Hwf He Hsticky Hvis Hpass w'. subst w'.
  rewrite Sync_inline_run. cbn [snd].
  set (ttl0 := ttl (w_store w0)) in *.
  assert (Hcm : ∀ k d, containerMap listing !! k = Some d → docker.ID d = k).
  { intros k d Hd. by apply containerMap_Some in Hd as [_ ?]. }
  assert (Hstored : ∀ stored,
            stored ∈ store.List (clock (w_tick w0)) (w_store w0) →
            ID stored = id → stored = e).
  { intros stored Hin Hid. apply elem_of_List in Hin as [[k Hk] _].
    rewrite <- (Hwf _ _ Hk), Hid in Hk. unfold entry in He. congruence. }
  split.
  - intros Hno.
    assert (kept clock id e ttl0 True
              (store_RemoveStaleData clock
                 (after_merge_inline clock getStats listing w0)).2) as Hk.
    { apply kept_RemoveStaleData; try assumption.
      unfold after_merge_inline. apply forM_keeps.
      { intros c w _. apply kept_mergeAndEnrich; assumption. }
      unfold after_transitions. apply forM_keeps.
      { intros stored w Hin.
        apply kept_resolveTransition; try assumption; [|by apply Hstored].
        intros d Hd. apply containerMap_Some in Hd as [? ?]. by apply Hno. }
      split; [done|]. exists e. split; [done|]. split; [done|]. by split; [left|]. }
    destruct Hk as [_ (e' & He' & _ & _ & Hx)]. by rewrite (Hx I) in He'.
  - intros d Hd Hid Honly Hc.
    assert (Hcmd : containerMap listing !! id = Some d) by by apply containerMap_only.
    assert (refreshed clock id ttl0 d
              (store_RemoveStaleData clock
                 (after_merge_inline clock getStats listing w0)).2) as Hk.
    { apply refreshed_RemoveStaleData; try assumption.
      unfold after_merge_inline. apply forM_keeps.
      { intros c w Hin. apply refreshed_mergeAndEnrich; try assumption.
        intros Hcid. by apply Honly. }
      unfold after_transitions.
      apply (forM_brings (λ w, ttl (w_store w) = ttl0)) with e.
      - apply elem_of_List. split; [by exists id|]. apply stale_false. apply Hvis.
      - intros [st tk] Httl.
        rewrite (resolveTransition_fire clock _ e _ d);
          [|by rewrite (Hwf _ _ He)|done].
        rewrite store_Update_run. cbn [snd]. by apply refreshed_Update.
      - intros stored w _ Httl. by rewrite ttl_resolveTransition.
      - intros stored w _. apply refreshed_resolveTransition; assumption.
      - done. }
    destruct Hk as [_ (e' & He' & Hf & _)]. by exists e'.
Qed.

(** A "stopping" entry whose container still runs: the inlined pass leaves
    it as it is although stats are on offer. *)
Lemma Sync_inline_sticky_transitions_witness :
  entry (Sync_inline (λ _, 10) (Ok [record_running])
           (λ _, Err "not asked")
           (mkWorld (Update 0 (set_State StateStopping (fromDocker record_running))
                       (NewStore 30)) 0)).2 "a"
  = Some (stored_by_Update 0 (set_State StateStopping (fromDocker record_running))
            (NewStore 30)).
Proof.
  destruct (Sync_inline_sticky_transitions (λ _, 10)
              (λ _, Err "not asked") [record_running] "a"
              (stored_by_Update 0 (set_State StateStopping (fromDocker record_running))
                 (NewStore 30))
              (mkWorld (Update 0 (set_State StateStopping (fromDocker record_running))
                          (NewStore 30)) 0)) as (Hkept & _).
  - apply wf_Update, wf_NewStore.
  - vm_compute. reflexivity.
  - reflexivity.
  - intros n. vm_compute. discriminate.
  - intros i j. vm_compute. discriminate.
  - apply Hkept. intros c Hc _. apply list_elem_of_singleton in Hc. by subst c.
Defined.

End StickyTransitions.

(** * A failed listing (C4) *)

Section SyncAbort.

Import store service.

(** C4: when [ListContainers] fails, [SyncContainers] and [Sync] (in
    either form of the service) return that error and the world is the one
    they started in: no entry is created, changed, given stats or purged,
    and the clock is not read. *)
Theorem C4_sync_abort (clock : nat → time.Time) (err : error)
    (getStats : string → result docker.ContainerStats)
    (sched : list docker.Container → list docker.Container) (w : World) :
  SyncContainers clock (Err err) w = (Err err, w) ∧
  Sync clock (Err err) getStats sched w = (Some err, w) ∧
  w_store (Sync clock (Err err) getStats sched w).2 = w_store w ∧
  Sync_inline clock (Err err) getStats w = (Some err, w).
Proof.
  assert (H : Sync clock (Err err) getStats sched w = (Some err, w)).
  { unfold Sync. rewrite bind_run. reflexivity. }
  split; [reflexivity|]. split; [exact H|]. split; [by rewrite H|reflexivity].
Qed.

End SyncAbort.

(** * Rollback of a failed start or stop (C5) *)

Section Lifecycle.

Import store service.

Variable clock : nat → time.Time.

Implicit Types (w : World) (e : ContainerData) (c : docker.Container).

(** The snapshot [StartContainer] and [StopContainer] begin with. *)
Definition known (id : string) (seed : result (list docker.Container)) (w : World)
  : ContainerData :=
  let '(existing, exists_) := store.Get (clock (w_tick w)) id (w_store w) in
  if exists_ then existing
  else match seed with
       | Ok containers =>
           match findContainer id containers with
           | Some c => seedFrom c
           | None => existing
           end
       | Err _ => existing
       end.

Lemma findContainer_Some id containers c :
  findContainer id containers = Some c → c ∈ containers ∧ docker.ID c = id.
Proof.
  unfold findContainer. intros H. apply find_some in H as [H1 H2].
  split; [by apply list_elem_of_In|].
  by apply bool_decide_eq_true in H2.
Qed.

(** With the key invariant, the snapshot carries [id] when the store
    shows an entry of [id] or the seed listing has a record of it. *)
Lemma known_ID id seed w :
  wf (w_store w) →
  (store.Get (clock (w_tick w)) id (w_store w)).2 = true ∨
  (∃ containers c, seed = Ok containers ∧ findContainer id containers = Some c) →
  ID (known id seed w) = id.
Proof.
  intros Hwf Hk. unfold known.
  destruct (store.Get (clock (w_tick w)) id (w_store w)) as [existing [|]] eqn:HG.
  - apply Get_true in HG as [HG _]. by apply Hwf in HG.
  - destruct Hk as [Hk|(containers & c & -> & Hc)]; [done|].
    rewrite Hc. cbn. by apply findContainer_Some in Hc as [_ ?].
Qed.

(** A failed command followed by a listing that has a record of [id]:
    the marker is written, then the snapshot with the record's state and
    status, both under the snapshot's [ID]. *)
Lemma StartContainer_failed_run id seed err containers c w :
  findContainer id containers = Some c →
  StartContainer clock id seed (Some err) (Ok containers) w =
  (Some err,
   mkWorld
     (Update (clock (S (tick_after_Get id w)))
        (set_Status (docker.Status c) (set_State (docker.State c)
           (set_Status "Starting" (set_State StateStarting (known id seed w)))))
        (Update (clock (tick_after_Get id w))
           (set_Status "Starting" (set_State StateStarting (known id seed w)))
           (w_store w)))
     (S (S (tick_after_Get id w)))).
Proof.
  intros Hc. unfold StartContainer, known.
  rewrite bind_run, store_Get_run. cbn [fst snd].
  destruct (store.Get (clock (w_tick w)) id (w_store w)) as [existing exists_].
  rewrite bind_run, store_Update_run. cbn [fst snd].
  rewrite Hc, bind_run, store_Update_run. reflexivity.
Qed.

Lemma StopContainer_failed_run id seed err containers c w :
  findContainer id containers = Some c →
  StopContainer clock id seed (Some err) (Ok containers) w =
  (Some err,
   mkWorld
     (Update (clock (S (tick_after_Get id w)))
        (set_Status (docker.Status c) (set_State (docker.State c)
           (set_Status "Stopping" (set_State StateStopping (known id seed w)))))
        (Update (clock (tick_after_Get id w))
           (set_Status "Stopping" (set_State StateStopping (known id seed w)))
           (w_store w)))
     (S (S (tick_after_Get id w)))).
Proof.
  intros Hc. unfold StopContainer, known.
  rewrite bind_run, store_Get_run. cbn [fst snd].
  destruct (store.Get (clock (w_tick w)) id (w_store w)) as [existing exists_].
  rewrite bind_run, store_Update_run. cbn [fst snd].
  rewrite Hc, bind_run, store_Update_run. reflexivity.
Qed.

(** The rollback reaches the entry of [id] whenever the snapshot carries
    [id]: the entry then has the state and status the listing reports,
    and the command's error is returned. *)
Lemma StartContainer_rollback id seed err containers c w :
  wf (w_store w) →
  (store.Get (clock (w_tick w)) id (w_store w)).2 = true ∨
  (∃ l c0, seed = Ok l ∧ findContainer id l = Some c0) →
  findContainer id containers = Some c →
  (StartContainer clock id seed (Some err) (Ok containers) w).1 = Some err ∧
  ∃ e', entry (StartContainer clock id seed (Some err) (Ok containers) w).2 id
          = Some e' ∧
        State e' = docker.State c ∧ Status e' = docker.Status c.
Proof.
  intros Hwf Hk Hc. rewrite (StartContainer_failed_run _ _ _ _ _ _ Hc).
  split; [done|]. pose proof (known_ID id seed w Hwf Hk) as Hid.
  cbn [snd]. rewrite entry_Update. cbn [ID set_Status set_State].
  rewrite decide_True by done. eexists. split; [done|].
  by rewrite State_stored_by_Update, Status_stored_by_Update.
Qed.

Lemma StopContainer_rollback id seed err containers c w :
  wf (w_store w) →
  (store.Get (clock (w_tick w)) id (w_store w)).2 = true ∨
  (∃ l c0, seed = Ok l ∧ findContainer id l = Some c0) →
  findContainer id containers = Some c →
  (StopContainer clock id seed (Some err) (Ok containers) w).1 = Some err ∧
  ∃ e', entry (StopContainer clock id seed (Some err) (Ok containers) w).2 id
          = Some e' ∧
        State e' = docker.State c ∧ Status e' = docker.Status c.
Proof.
  intros Hwf Hk Hc. rewrite (StopContainer_failed_run _ _ _ _ _ _ Hc).
  split; [done|]. pose proof (known_ID id seed w Hwf Hk) as Hid.
  cbn [snd]. rewrite entry_Update. cbn [ID set_Status set_State].
  rewrite decide_True by done. eexists. split; [done|].
  by rewrite State_stored_by_Update, Status_stored_by_Update.
Qed.

End Lifecycle.

Section LifecycleUnknownId.

Import store service.

(** C5 at an id the service knows nothing of: the store is empty, the seed
    listing fails, the start (or stop) command fails, and the listing
    asked for afterwards reports the container as exited.  The command's
    error is returned, but the snapshot the service works on is
    [ContainerData{}], whose [ID] is empty: the marker and the rollback
    are both stored under the empty key, and the store has no entry of
    the id at all. *)
Theorem C5_rollback_misses_unknown_id :
  let w := mkWorld (NewStore 30) 0 in
  let start :=
    StartContainer (λ _, 0) "a" (Err "listing failed") (Some "start failed")
      (Ok [record_exited]) w in
  let stop :=
    StopContainer (λ _, 0) "a" (Err "listing failed") (Some "stop failed")
      (Ok [record_exited]) w in
  (start.1 = Some "start failed" ∧
   entry start.2 "a" = None ∧
   entry start.2 "" =
     Some (mkContainerData "" [] "" "exited" "Exited (1)" 0 None 0)) ∧
  (stop.1 = Some "stop failed" ∧
   entry stop.2 "a" = None ∧
   entry stop.2 "" =
     Some (mkContainerData "" [] "" "exited" "Exited (1)" 0 None 0)).
Proof. vm_compute. repeat split; reflexivity. Qed.

End LifecycleUnknownId.

(** * Display ordering (C6) *)

Section DisplayOrder.

Import store service.

Implicit Types (a b c : ContainerData).

Global Instance notAfter_total : Total notAfter.
Proof.
  intros a b. unfold notAfter, less.
  generalize (getStatusPriority (State a)) (getStatusPriority (State b)).
  intros pa pb.
  destruct (Stats_ a) as [sa|], (Stats_ b) as [sb|];
    repeat case_bool_decide; auto; lia.
Qed.

Global Instance notAfter_trans : Transitive notAfter.
Proof.
  intros a b c. unfold notAfter, less.
  generalize (getStatusPriority (State a)) (getStatusPriority (State b))
             (getStatusPriority (State c)).
  intros pa pb pc.
  destruct (Stats_ a) as [sa|], (Stats_ b) as [sb|], (Stats_ c) as [sc|];
    repeat case_bool_decide; try done; lia.
Qed.

Lemma StronglySorted_lookup {A} (R : relation A) (l : list A) i j x y :
  StronglySorted R l → (i < j)%nat → l !! i = Some x → l !! j = Some y → R x y.
Proof.
  intros Hs. revert i j. induction Hs as [|z l Hs IH Hall]; intros i j Hij Hi Hj.
  - by rewrite lookup_nil in Hi.
  - destruct j as [|j]; [lia|]. cbn in Hj. destruct i as [|i].
    + injection Hi as <-. rewrite Forall_forall in Hall. apply Hall.
      by apply list_elem_of_lookup_2 in Hj.
    + cbn in Hi. apply (IH i j); [lia|done..].
Qed.

(** What [notAfter a b] says, in the words of the ordering. *)
Lemma notAfter_spec a b :
  notAfter a b →
  getStatusPriority (State a) ≤ getStatusPriority (State b) ∧
  (getStatusPriority (State a) = getStatusPriority (State b) →
   (is_Some (Stats_ b) → is_Some (Stats_ a)) ∧
   (∀ sa sb, Stats_ a = Some sa → Stats_ b = Some sb →
      Memory_Usage sb ≤ Memory_Usage sa ∧
      (Memory_Usage sa = Memory_Usage sb → Created b ≤ Created a)) ∧
   (Stats_ a = None → Stats_ b = None → Created b ≤ Created a)).
Proof.
  unfold notAfter, less.
  generalize (getStatusPriority (State a)) (getStatusPriority (State b)).
  intros pa pb H.
  destruct (Stats_ a) as [sa|], (Stats_ b) as [sb|];
    repeat case_bool_decide; try done; (split; [lia|]); intros Hp;
    (split; [intros; by eauto|]); (split; [|done || (intros; lia)]);
    intros ? ? [= <-] [= <-] || intros ? ? [=] || intros ? ? ? [=]; lia.
Qed.

(** The four entries of the spec's example, given in reverse. *)
Definition order_example : list ContainerData :=
  [ mkContainerData "D" [] "" "exited" "" 4 None 0;
    mkContainerData "C" [] "" "starting" "" 3 None 0;
    mkContainerData "B" [] "" "stopping" "" 2 None 0;
    mkContainerData "A" [] "" "running" "" 1
      (Some (mkStats 100 0 Float64.zero 0 0)) 0 ].

Example sortContainers_example :
  ID <$> sortContainers order_example = ["A"; "B"; "C"; "D"].
Proof. vm_compute. reflexivity. Qed.

(** C6: the priorities are running 0, stopping 1, starting 2, exited 3 and
    4 for every other state; the service's [List] returns the store's
    listing rearranged so that, of two entries, the one that stands first
    has the lower or the same priority; at the same priority an entry
    without stats never stands before one with stats, two entries with
    stats stand by memory usage descending, and entries tied so far
    (equal usage, or both without stats) stand by creation time
    descending. *)
Theorem C6_display_order (clock : nat → time.Time) (w : World) :
  (getStatusPriority "running" = 0 ∧ getStatusPriority StateStopping = 1 ∧
   getStatusPriority StateStarting = 2 ∧ getStatusPriority "exited" = 3 ∧
   ∀ state, state ≠ "running" → state ≠ StateStopping →
            state ≠ StateStarting → state ≠ "exited" →
            getStatusPriority state = 4) ∧
  (service.List clock w).1 ≡ₚ store.List (clock (w_tick w)) (w_store w) ∧
  ∀ i j a b, (i < j)%nat →
    (service.List clock w).1 !! i = Some a →
    (service.List clock w).1 !! j = Some b →
    getStatusPriority (State a) ≤ getStatusPriority (State b) ∧
    (getStatusPriority (State a) = getStatusPriority (State b) →
     (is_Some (Stats_ b) → is_Some (Stats_ a)) ∧
     (∀ sa sb, Stats_ a = Some sa → Stats_ b = Some sb →
        Memory_Usage sb ≤ Memory_Usage sa ∧
        (Memory_Usage sa = Memory_Usage sb → Created b ≤ Created a)) ∧
     (Stats_ a = None → Stats_ b = None → Created b ≤ Created a)).
Proof.
  assert (HL : (service.List clock w).1 =
               sortContainers (store.List (clock (w_tick w)) (w_store w))).
  { unfold service.List. rewrite bind_run, store_List_run. reflexivity. }
  split; [|split].
  - repeat split; try reflexivity.
    intros state H1 H2 H3 H4. unfold getStatusPriority.
    by rewrite !bool_decide_false.
  - rewrite HL. apply merge_sort_Permutation.
  - intros i j a b Hij Ha Hb. rewrite HL in Ha, Hb. apply notAfter_spec.
    eapply StronglySorted_lookup; [|done..].
    apply (StronglySorted_merge_sort notAfter).
Qed.

End DisplayOrder.

(** * float64 of small integers *)

Section FloatFacts.

Import Float64.

Lemma digits2_pos_iter_xO (p k : positive) :
  digits2_pos (Pos.iter xO p k) = (digits2_pos p + k)%positive.
Proof.
  induction k as [|k IH] using Pos.peano_ind.
  - cbn. lia.
  - rewrite Pos.iter_succ. cbn. rewrite IH. lia.
Qed.

Lemma digits2_pos_lower (p : positive) :
  2 ^ (Z.pos (digits2_pos p) - 1) ≤ Z.pos p.
Proof.
  induction p as [p IH|p IH|]; cbn [digits2_pos]; [| |done].
  - replace (Z.pos (Pos.succ (digits2_pos p)) - 1)
      with (Z.succ (Z.pos (digits2_pos p) - 1)) by lia.
    rewrite Z.pow_succ_r by lia. lia.
  - replace (Z.pos (Pos.succ (digits2_pos p)) - 1)
      with (Z.succ (Z.pos (digits2_pos p) - 1)) by lia.
    rewrite Z.pow_succ_r by lia. lia.
Qed.

Lemma digits2_pos_53 (p : positive) :
  Z.pos p < 2 ^ 53 → Z.pos (digits2_pos p) ≤ 53.
Proof.
  intros Hp. pose proof (digits2_pos_lower p) as Hl.
  destruct (decide (Z.pos (digits2_pos p) ≤ 53)) as [|Hgt]; [done|].
  assert (2 ^ 53 ≤ 2 ^ (Z.pos (digits2_pos p) - 1)).
  { apply Z.pow_le_mono_r; lia. }
  lia.
Qed.

(** [float64(n)] of a positive integer of at most 53 bits is a finite,
    positive float: no rounding takes place. *)
Lemma of_Z_pos_finite (p : positive) :
  Z.pos (digits2_pos p) ≤ 53 →
  ∃ m e, of_Z (Z.pos p) = S754_finite false m e.
Proof.
  intros Hd. unfold of_Z, binary_normalize, binary_round.
  set (d := Z.pos (digits2_pos p)) in *.
  assert (Hf : fexp prec emax (d + 0) = d - 53).
  { unfold fexp, emin, prec, emax. lia. }
  rewrite Hf. unfold shl_align.
  destruct (d - 53 - 0) as [|q|q] eqn:Hq; [|lia|].
  - unfold binary_round_aux, shr_fexp. cbn [Zdigits2]. fold d.
    replace (fexp prec emax (d + 0) - 0) with 0 by (rewrite Hf; lia).
    cbn [shr shr_record_of_loc shr_m loc_of_shr_record round_nearest_even Zdigits2].
    fold d. replace (fexp prec emax (d + 0) - 0) with 0 by (rewrite Hf; lia).
    cbn. eauto.
  - unfold binary_round_aux, shr_fexp. cbn [Zdigits2].
    rewrite digits2_pos_iter_xO.
    assert (Hf2 : fexp prec emax (Z.pos (digits2_pos p + q) + (d - 53)) - (d - 53) = 0).
    { unfold fexp, emin, prec, emax. fold d. lia. }
    rewrite Hf2.
    cbn [shr shr_record_of_loc shr_m loc_of_shr_record round_nearest_even Zdigits2].
    rewrite digits2_pos_iter_xO, Hf2. cbn [shr shr_m].
    replace (d - 53 <=? emax - prec) with true; [eauto|].
    symmetry. apply Z.leb_le. unfold emax, prec. lia.
Qed.

(** [numCPUs == 0] holds exactly when the integer is 0. *)
Lemma eqb_of_Z_zero (n : Z) :
  0 ≤ n < 2 ^ 53 → eqb (of_Z n) (of_Z 0) = bool_decide (n = 0).
Proof.
  intros Hn. destruct n as [|p|p]; [done| |lia].
  destruct (of_Z_pos_finite p) as (m & e & ->); [apply digits2_pos_53; lia|].
  done.
Qed.

End FloatFacts.

(** * Enrichment: the CPU usage that is stored (C7, C8) *)

Section Enrichment.

Import store service.

Variable clock : nat → time.Time.
Variable sched : list docker.Container → list docker.Container.
Variable getStats : string → result docker.ContainerStats.

Hypothesis Hsched : ∀ l, sched l ≡ₚ l.

Implicit Types (w : World) (c : docker.Container) (stats : docker.ContainerStats).

(** [(cpuDelta / systemDelta) * 100 * onlineCores] in float64, with one
    core taken when the sample reports none. *)
Definition cpu_percent (cpuDelta systemDelta onlineCPUs : Z) : float64 :=
  Float64.mul
    (Float64.mul (Float64.div (Float64.of_Z cpuDelta) (Float64.of_Z systemDelta))
                 (Float64.of_Z 100))
    (Float64.of_Z (if bool_decide (onlineCPUs = 0) then 1 else onlineCPUs)).

(** Rounding to two decimal places in the usual sense, to the nearest
    hundredth, of the exact value of [cpuDelta / systemDelta * 100 *
    onlineCores]: the number of hundredths, and the float64 nearest to
    it. *)
Definition nearest_hundredths (cpuDelta systemDelta onlineCPUs : Z) : Z :=
  (2 * (cpuDelta * 100 * onlineCPUs * 100) + systemDelta) / (2 * systemDelta).

Definition rounded_cpu_usage (cpuDelta systemDelta onlineCPUs : Z) : float64 :=
  Float64.div (Float64.of_Z (nearest_hundredths cpuDelta systemDelta onlineCPUs))
              (Float64.of_Z 100).

(** After [SyncStats], a running container of the listing whose sample was
    fetched and whose entry is in the store has the converted sample as
    its stats, whatever stats it had. *)
Lemma SyncStats_stores listing c stats w :
  c ∈ listing → docker.State c = "running" →
  getStats (docker.ID c) = Ok stats →
  is_Some (entry w (docker.ID c)) →
  ∃ e', entry (SyncStats clock getStats sched listing w).2 (docker.ID c) = Some e' ∧
        Stats_ e' = Some (convertStats stats).
Proof.
  intros Hin Hrun Hget Hsome. unfold SyncStats.
  apply (forM_brings (λ w, is_Some (entry w (docker.ID c)))) with c.
  - rewrite Hsched. by apply list_elem_of_filter.
  - intros [st tk] [e0 He0]. unfold statsWorker. rewrite Hget.
    rewrite bind_run, store_UpdateStats_run, He0. unfold ret.
    cbn [fst snd w_store w_tick].
    rewrite entry_UpdateStats, decide_True by done.
    unfold entry in He0. cbn in He0. rewrite He0. cbn. by eexists.
  - intros b [st tk] _ HI.
    destruct (statsWorker_cases clock getStats b (mkWorld st tk))
      as [->|(s & _ & ->)]; [done|].
    cbn [snd w_store w_tick]. rewrite entry_UpdateStats.
    case_decide; [|done]. by apply fmap_is_Some.
  - intros b [st tk] _ (e' & He' & HS).
    destruct (statsWorker_cases clock getStats b (mkWorld st tk))
      as [->|(s & Hs & ->)]; [by exists e'|].
    cbn [snd w_store w_tick]. rewrite entry_UpdateStats.
    case_decide as Hid; [|by exists e'].
    unfold entry in He'. cbn in He'. rewrite He'. cbn. eexists. split; [done|].
    cbn. rewrite <- Hid, Hget in Hs. by injection Hs as <-.
  - done.
Qed.

Lemma sub64_exact (a b : Z) :
  docker.uint64 a → docker.uint64 b → a - b > 0 → sub64 a b = a - b.
Proof.
  unfold docker.uint64, sub64. intros Ha Hb Hd. apply Z.mod_small. lia.
Qed.

(** The usage [convertStats] computes from positive deltas. *)
Lemma convertStats_usage stats n :
  docker.ContainerStats_ok stats →
  let cpuDelta :=
    docker.CPUStats_TotalUsage stats - docker.PreCPUStats_TotalUsage stats in
  let systemDelta :=
    docker.CPUStats_SystemCPUUsage stats - docker.PreCPUStats_SystemCPUUsage stats in
  cpuDelta > 0 → systemDelta > 0 →
  Float64.trunc
    (Float64.mul (cpu_percent cpuDelta systemDelta (docker.CPUStats_OnlineCPUs stats))
                 (Float64.of_Z 100)) = Some n →
  Float64.minInt64 ≤ n ≤ Float64.maxInt64 →
  CPU_Usage (convertStats stats) = Float64.div (Float64.of_Z n) (Float64.of_Z 100).
Proof.
  intros (HT & HS & HC & HPT & HPS & _) cpuDelta systemDelta Hcd Hsd Htr Hn.
  unfold convertStats. cbn [CPU_Usage].
  rewrite (sub64_exact _ _ HT HPT Hcd), (sub64_exact _ _ HS HPS Hsd).
  fold cpuDelta systemDelta.
  rewrite !bool_decide_true by done. cbn [andb].
  rewrite eqb_of_Z_zero by (unfold docker.uint32 in HC; lia).
  replace (if bool_decide (docker.CPUStats_OnlineCPUs stats = 0)
           then Float64.of_Z 1 else Float64.of_Z (docker.CPUStats_OnlineCPUs stats))
    with (Float64.of_Z (if bool_decide (docker.CPUStats_OnlineCPUs stats = 0)
                        then 1 else docker.CPUStats_OnlineCPUs stats))
    by by case_bool_decide.
  fold (cpu_percent cpuDelta systemDelta (docker.CPUStats_OnlineCPUs stats)).
  unfold Float64.to_int. rewrite Htr. by rewrite bool_decide_true.
Qed.

(** The usage [convertStats] leaves when a delta is not positive. *)
Lemma convertStats_usage_skipped stats :
  sub64 (docker.CPUStats_SystemCPUUsage stats)
        (docker.PreCPUStats_SystemCPUUsage stats) ≤ 0 ∨
  sub64 (docker.CPUStats_TotalUsage stats)
        (docker.PreCPUStats_TotalUsage stats) ≤ 0 →
  CPU_Usage (convertStats stats) = Float64.zero.
Proof.
  intros H. unfold convertStats. cbn [CPU_Usage].
  destruct H as [H|H].
  - rewrite (bool_decide_false (_ > 0)) by lia. done.
  - rewrite (bool_decide_false (sub64 (docker.CPUStats_TotalUsage stats) _ > 0))
      by lia.
    by rewrite andb_false_r.
Qed.

End Enrichment.

Section CpuUsage.

Import store service.

(** A sample with [cpuDelta = 200000000], [systemDelta = 300000000]
    (nanoseconds) and one core: the exact percentage is 66.666..., which
    rounds to 66.67. *)
Definition sample_two_thirds : docker.ContainerStats :=
  docker.mkContainerStats 1200000000 30000000000 1 1000000000 29700000000
                          104857600 1073741824.

(** A sample with [cpuDelta = 290000000], [systemDelta = 1000000000] and
    one core: the exact percentage is 29. *)
Definition sample_29 : docker.ContainerStats :=
  docker.mkContainerStats 1290000000 30000000000 1 1000000000 29000000000
                          104857600 1073741824.

(** The sample of the service's test: deltas of 10000000, four cores. *)
Definition sample_test : docker.ContainerStats :=
  docker.mkContainerStats 100000000 1000000000 4 90000000 990000000
                          104857600 1073741824.

(** C7 at [cpuDelta = 200000000], [systemDelta = 300000000], one core:
    the usage stored is 66.66, the percentage cut after two decimals, and not 66.67, the
    percentage rounded to two decimals as the claim, and the comment in
    the code, have it. *)
Lemma C7_usage_is_truncated :
  CPU_Usage (convertStats sample_two_thirds)
    = Float64.div (Float64.of_Z 6666) (Float64.of_Z 100) ∧
  rounded_cpu_usage 200000000 300000000 1 = Float64.div (Float64.of_Z 6667) (Float64.of_Z 100) ∧
  CPU_Usage (convertStats sample_two_thirds) ≠ rounded_cpu_usage 200000000 300000000 1.
Proof.
  split; [vm_compute; reflexivity|]. split; [vm_compute; reflexivity|].
  vm_compute. intros H. discriminate H.
Qed.

(** The cut also shows where the exact percentage has two decimals
    already: 290000000/1000000000 gives 28.99, because the float64 product
    [0.29 * 100] lies just below 29. *)
Example convertStats_29 :
  CPU_Usage (convertStats sample_29)
    = Float64.div (Float64.of_Z 2899) (Float64.of_Z 100) ∧
  rounded_cpu_usage 290000000 1000000000 1 = Float64.div (Float64.of_Z 2900) (Float64.of_Z 100).
Proof. split; vm_compute; reflexivity. Qed.

(** What the code does store: for a sample with [cpuDelta > 0] and
    [systemDelta > 0], the CPU usage that [SyncStats] stores for a running
    container of the listing that has an entry is [float64(n) / 100],
    where [n] is the integer part of [p * 100] and [p] is
    [(cpuDelta / systemDelta) * 100 * onlineCores] evaluated in float64,
    with one core taken when the sample reports none (provided [n] is an
    int64). *)
Theorem SyncStats_cpu_usage (clock : nat → time.Time)
    (sched : list docker.Container → list docker.Container)
    (getStats : string → result docker.ContainerStats)
    (listing : list docker.Container) (c : docker.Container)
    (stats : docker.ContainerStats) (w : World) (n : Z) :
  (∀ l, sched l ≡ₚ l) →
  c ∈ listing → docker.State c = "running" →
  getStats (docker.ID c) = Ok stats →
  docker.ContainerStats_ok stats →
  is_Some (entry w (docker.ID c)) →
  let cpuDelta :=
    docker.CPUStats_TotalUsage stats - docker.PreCPUStats_TotalUsage stats in
  let systemDelta :=
    docker.CPUStats_SystemCPUUsage stats - docker.PreCPUStats_SystemCPUUsage stats in
  cpuDelta > 0 → systemDelta > 0 →
  Float64.trunc
    (Float64.mul (cpu_percent cpuDelta systemDelta (docker.CPUStats_OnlineCPUs stats))
                 (Float64.of_Z 100)) = Some n →
  Float64.minInt64 ≤ n ≤ Float64.maxInt64 →
  ∃ e' st,
    entry (SyncStats clock getStats sched listing w).2 (docker.ID c) = Some e' ∧
    Stats_ e' = Some st ∧
    CPU_Usage st = Float64.div (Float64.of_Z n) (Float64.of_Z 100).
Proof.
  intros Hsched Hin Hrun Hget Hok Hsome cpuDelta systemDelta Hcd Hsd Htr Hn.
  destruct (SyncStats_stores clock sched getStats Hsched listing c stats w)
    as (e' & He' & HS); [done..|].
  exists e', (convertStats stats). split; [done|]. split; [done|].
  by apply convertStats_usage.
Qed.

(** The test's sample: 10000000 / 10000000 * 100 * 4 = 400. *)
Lemma SyncStats_cpu_usage_witness :
  ∃ e' st,
    entry (SyncStats (λ _, 10) (λ _, Ok sample_test) (λ l, l) [record_running]
             world_starting).2 "a" = Some e' ∧
    Stats_ e' = Some st ∧
    CPU_Usage st = Float64.div (Float64.of_Z 40000) (Float64.of_Z 100).
Proof.
  apply (SyncStats_cpu_usage (λ _, 10) (λ l, l) (λ _, Ok sample_test) [record_running]
           record_running sample_test world_starting 40000).
  - reflexivity.
  - constructor.
  - reflexivity.
  - reflexivity.
  - unfold docker.ContainerStats_ok, docker.uint64, docker.uint32. cbn. lia.
  - vm_compute. by eexists.
  - reflexivity.
  - reflexivity.
  - vm_compute. reflexivity.
  - unfold Float64.minInt64, Float64.maxInt64. lia.
Defined.

(** The conversion inlined in [Sync] of service/containers.go keeps every
    decimal of the float64 percentage, and multiplies by the number of
    cores as reported: no core gives a usage of 0. *)
Example convertStats_inline_usage :
  CPU_Usage (convertStats_inline sample_two_thirds)
    = Float64.mul (Float64.div (Float64.of_Z 200000000) (Float64.of_Z 300000000))
                  (Float64.of_Z 100) ∧
  CPU_Usage (convertStats_inline sample_two_thirds) ≠ rounded_cpu_usage 200000000 300000000 1 ∧
  CPU_Usage (convertStats_inline (docker.mkContainerStats 2 3 0 0 0 0 0))
    = Float64.zero.
Proof.
  split; [vm_compute; reflexivity|].
  split; [vm_compute; intros H; discriminate H|]. vm_compute. reflexivity.
Qed.

(** An entry whose stats hold a usage of 50, and a sample whose CPU
    counter did not move. *)
Definition stats_busy : Stats := mkStats 100 200 (Float64.of_Z 50) 2 5.
Definition world_busy : World :=
  mkWorld
    (UpdateStats 0 "a" (Some stats_busy)
       (Update 0 (fromDocker record_running) (NewStore 30))).1 0.
Definition sample_idle : docker.ContainerStats :=
  docker.mkContainerStats 500 2000 2 500 1000 100 200.

(** C8, as stated, fails: with [cpuDelta = 0] the usage of the entry after
    the cycle is 0, not the 50 it had: the cycle stores a new stats record
    whose usage was never assigned. *)
Lemma C8_usage_reset_to_zero :
  CPU_Usage <$> (entry world_busy "a" ≫= Stats_) = Some (Float64.of_Z 50) ∧
  sub64 (docker.CPUStats_TotalUsage sample_idle)
        (docker.PreCPUStats_TotalUsage sample_idle) ≤ 0 ∧
  CPU_Usage <$>
    (entry (SyncStats (λ _, 10) (λ _, Ok sample_idle) (λ l, l) [record_running]
              world_busy).2 "a" ≫= Stats_) = Some Float64.zero ∧
  Float64.of_Z 50 ≠ Float64.zero.
Proof.
  split; [vm_compute; reflexivity|]. split; [vm_compute; discriminate|].
  split; [vm_compute; reflexivity|]. vm_compute. intros H. discriminate H.
Qed.

(** A counter that went backwards is not skipped either: the uint64
    difference wraps around to a positive value. *)
Example convertStats_counter_backwards :
  sub64 0 1 = 2 ^ 64 - 1 ∧
  CPU_Usage (convertStats (docker.mkContainerStats 0 1 1 1 0 0 0)) ≠ Float64.zero.
Proof. split; [reflexivity|]. vm_compute. intros H. discriminate H. Qed.

(** C8, amended: when the sample's [systemDelta] or [cpuDelta], as the
    uint64 differences the code computes, is not positive (that is, is
    0), the CPU usage of the entry after the cycle is 0, the zero value of
    the new stats record, whatever usage the entry had. *)
Theorem C8_nonpositive_delta (clock : nat → time.Time)
    (sched : list docker.Container → list docker.Container)
    (getStats : string → result docker.ContainerStats)
    (listing : list docker.Container) (c : docker.Container)
    (stats : docker.ContainerStats) (w : World) :
  (∀ l, sched l ≡ₚ l) →
  c ∈ listing → docker.State c = "running" →
  getStats (docker.ID c) = Ok stats →
  is_Some (entry w (docker.ID c)) →
  sub64 (docker.CPUStats_SystemCPUUsage stats)
        (docker.PreCPUStats_SystemCPUUsage stats) ≤ 0 ∨
  sub64 (docker.CPUStats_TotalUsage stats)
        (docker.PreCPUStats_TotalUsage stats) ≤ 0 →
  ∃ e' st,
    entry (SyncStats clock getStats sched listing w).2 (docker.ID c) = Some e' ∧
    Stats_ e' = Some st ∧
    CPU_Usage st = Float64.zero ∧
    Memory_Usage st = docker.MemoryStats_Usage stats.
Proof.
  intros Hsched Hin Hrun Hget Hsome Hd.
  destruct (SyncStats_stores clock sched getStats Hsched listing c stats w)
    as (e' & He' & HS); [done..|].
  exists e', (convertStats stats). split; [done|]. split; [done|].
  split; [by apply convertStats_usage_skipped|reflexivity].
Qed.

Lemma C8_nonpositive_delta_witness :
  ∃ e' st,
    entry (SyncStats (λ _, 10) (λ _, Ok sample_idle) (λ l, l) [record_running]
             world_busy).2 "a" = Some e' ∧
    Stats_ e' = Some st ∧
    CPU_Usage st = Float64.zero ∧
    Memory_Usage st = 100.
Proof.
  apply (C8_nonpositive_delta (λ _, 10) (λ l, l) (λ _, Ok sample_idle)
           [record_running] record_running sample_idle world_busy).
  - reflexivity.
  - constructor.
  - reflexivity.
  - reflexivity.
  - vm_compute. by eexists.
  - right. vm_compute. discriminate.
Defined.

End CpuUsage.

(** * Worked runs *)

Section Runs.

Import store service.

(** A failed start of a container the seed listing knows: the rollback
    reaches its entry. *)
Lemma StartContainer_rollback_witness :
  (StartContainer (λ _, 0) "a" (Ok [record_running]) (Some "start failed")
     (Ok [record_exited]) (mkWorld (NewStore 30) 0)).1 = Some "start failed" ∧
  ∃ e', entry (StartContainer (λ _, 0) "a" (Ok [record_running])
                 (Some "start failed") (Ok [record_exited])
                 (mkWorld (NewStore 30) 0)).2 "a" = Some e' ∧
        State e' = "exited" ∧ Status e' = "Exited (1)".
Proof.
  apply (StartContainer_rollback (λ _, 0) "a" (Ok [record_running]) "start failed"
           [record_exited] record_exited (mkWorld (NewStore 30) 0)).
  - apply wf_NewStore.
  - right. exists [record_running], record_running. split; reflexivity.
  - reflexivity.
Defined.

(** A failed stop of a container that is in the store. *)
Lemma StopContainer_rollback_witness :
  (StopContainer (λ _, 10) "a" (Err "not asked") (Some "stop failed")
     (Ok [record_running]) world_busy).1 = Some "stop failed" ∧
  ∃ e', entry (StopContainer (λ _, 10) "a" (Err "not asked") (Some "stop failed")
                 (Ok [record_running]) world_busy).2 "a" = Some e' ∧
        State e' = "running" ∧ Status e' = "Up 1 second".
Proof.
  apply (StopContainer_rollback (λ _, 10) "a" (Err "not asked") "stop failed"
           [record_running] record_running world_busy).
  - apply wf_UpdateStats, wf_Update, wf_NewStore.
  - left. vm_compute. reflexivity.
  - reflexivity.
Defined.

(** A pass over an entry marked "stopping" whose container still runs:
    the marker and the listed fields stay, but the enrichment gives the
    entry new stats and a new [Updated]. *)
Definition world_stopping : World :=
  mkWorld (Update 0 (set_Status "Stopping" (set_State StateStopping
                       (fromDocker record_running))) (NewStore 30)) 0.

Example stopping_entry_is_enriched :
  entry world_stopping "a" =
    Some (mkContainerData "a" ["web"] "nginx" "stopping" "Stopping" 1000 None 0) ∧
  entry (Sync (λ n, 10 + Z.of_nat n) (Ok [record_running]) (λ _, Ok sample_test)
           (λ l, l) world_stopping).2 "a" =
    Some (mkContainerData "a" ["web"] "nginx" "stopping" "Stopping" 1000
            (Some (convertStats sample_test)) 12).
Proof. split; vm_compute; reflexivity. Qed.

(** A failed start of a running container that has stats, rolled back to
    "exited": the snapshot handed to [Update] is the cached entry, so its
    stats stay with the exited entry. *)
Example rollback_to_exited_keeps_stats :
  entry (StartContainer (λ _, 10) "a" (Err "not asked") (Some "start failed")
           (Ok [record_exited]) world_busy).2 "a" =
    Some (mkContainerData "a" ["web"] "nginx" "exited" "Exited (1)" 1000
            (Some stats_busy) 10).
Proof. vm_compute. reflexivity. Qed.

End Runs.

(** * More of the store: what a reader and a writer can rely on *)

Section StoreReaders.

Import store.

Implicit Types (s : Store) (c e : ContainerData) (now r : time.Time).

Lemma Store_eq s1 s2 :
  containers s1 = containers s2 → ttl s1 = ttl s2 → s1 = s2.
Proof. destruct s1, s2. cbn. by intros -> ->. Qed.

(** Once stale, stale at every later instant. *)
Lemma stale_later s now r e :
  now ≤ r → stale s now e = true → stale s r e = true.
Proof.
  intros Hle Hs. apply stale_true. apply stale_true in Hs.
  pose proof (Sub_mono now r (Updated e) Hle). lia.
Qed.

(** The keys and entries that are not stale at [r]. *)
Definition visible_pairs (r : time.Time) (s : Store)
  : list (string * ContainerData) :=
  filter (λ kc, stale s r kc.2 = false) (map_to_list (containers s)).

Lemma List_visible_pairs r s : List r s = (visible_pairs r s).*2.
Proof.
  unfold List, visible_pairs.
  induction (map_to_list (containers s)) as [|[k c] l IH]; [done|].
  cbn [fmap list_fmap]. rewrite !filter_cons. cbn [snd].
  case_decide; cbn [fmap list_fmap]; by rewrite IH.
Qed.

Lemma elem_of_visible_pairs r s k c :
  (k, c) ∈ visible_pairs r s ↔
  containers s !! k = Some c ∧ stale s r c = false.
Proof.
  unfold visible_pairs. rewrite list_elem_of_filter, elem_of_map_to_list. cbn.
  tauto.
Qed.

Lemma NoDup_visible_pairs r s : NoDup (visible_pairs r s).
Proof. apply NoDup_filter, NoDup_map_to_list. Qed.

Lemma NoDup_List_ID now s : wf s → NoDup (ID <$> List now s).
Proof.
  intros Hwf. rewrite List_visible_pairs, <- list_fmap_compose.
  apply NoDup_fmap_2_strong; [|apply NoDup_visible_pairs].
  intros [k1 c1] [k2 c2] H1 H2 Hid. cbn in Hid.
  apply elem_of_visible_pairs in H1 as [H1 _].
  apply elem_of_visible_pairs in H2 as [H2 _].
  pose proof (Hwf _ _ H1) as E1. pose proof (Hwf _ _ H2) as E2.
  assert (k1 = k2) as -> by congruence. congruence.
Qed.

(** In a store with the key invariant, [List] has no two entries of one
    id, and it holds exactly the entries that [Get] returns under their
    own id. *)
Theorem List_Get_agree now s :
  wf s →
  NoDup (ID <$> List now s) ∧
  ∀ c, c ∈ List now s ↔ Get now (ID c) s = (c, true).
Proof.
  intros Hwf. split.
  - by apply NoDup_List_ID.
  - intros c. rewrite elem_of_List. split.
    + intros [[k Hk] Hs]. apply Get_visible; [|done].
      by rewrite (Hwf _ _ Hk).
    + intros HG. apply Get_true in HG as [HG Hs]. split; [by eexists|done].
Qed.

Lemma List_Get_agree_witness :
  NoDup (ID <$> List 5 (Update 0 entry_a (NewStore 30))) ∧
  ∀ c, c ∈ List 5 (Update 0 entry_a (NewStore 30)) ↔
       Get 5 (ID c) (Update 0 entry_a (NewStore 30)) = (c, true).
Proof.
  apply (List_Get_agree 5 (Update 0 entry_a (NewStore 30))).
  apply wf_Update, wf_NewStore.
Defined.

(** A purge at [now] is not seen by any reader at [now] or later: [Get]
    answers the same for every id, [List] holds the same entries; and a
    second purge at the same instant changes nothing. *)
Theorem RemoveStaleData_unobservable now r s :
  now ≤ r →
  (∀ id, Get r id (RemoveStaleData now s) = Get r id s) ∧
  List r (RemoveStaleData now s) ≡ₚ List r s ∧
  RemoveStaleData now (RemoveStaleData now s) = RemoveStaleData now s.
Proof.
  intros Hle.
  assert (Hst : ∀ e, stale (RemoveStaleData now s) r e = stale s r e) by done.
  split; [|split].
  - intros id. unfold Get. rewrite RemoveStaleData_lookup.
    destruct (containers s !! id) as [e|]; [|done].
    destruct (stale s now e) eqn:Hs; [|by rewrite Hst].
    by rewrite (stale_later s now r e Hle Hs).
  - rewrite !List_visible_pairs. apply fmap_Permutation.
    apply NoDup_Permutation; [apply NoDup_visible_pairs..|].
    intros [k c]. rewrite !elem_of_visible_pairs, RemoveStaleData_lookup, Hst.
    split.
    + intros [Hk Hs]. destruct (containers s !! k) as [e|]; [|done].
      destruct (stale s now e); [done|]. by injection Hk as ->.
    + intros [Hk Hs]. rewrite Hk. split; [|done].
      destruct (stale s now c) eqn:Hn; [|done].
      rewrite (stale_later s now r c Hle Hn) in Hs. done.
  - apply Store_eq; [|done]. apply map_eq. intros k.
    rewrite !RemoveStaleData_lookup.
    destruct (containers s !! k) as [e|]; [|done].
    destruct (stale s now e) eqn:Hs; [done|].
    assert (stale (RemoveStaleData now s) now e = stale s now e) as -> by done.
    by rewrite Hs.
Qed.

Lemma RemoveStaleData_unobservable_witness :
  (∀ id, Get 100 id (RemoveStaleData 50 store_a) = Get 100 id store_a) ∧
  List 100 (RemoveStaleData 50 store_a) ≡ₚ List 100 store_a ∧
  RemoveStaleData 50 (RemoveStaleData 50 store_a) = RemoveStaleData 50 store_a.
Proof. apply (RemoveStaleData_unobservable 50 100 store_a). lia. Defined.

End StoreReaders.

(** * Sequences of store calls *)

Section StoreCalls.

Import store.

(** A call of one of the store's writing methods, with the instant its
    [time.Now()] returns. *)
Inductive call : Type :=
| CallUpdate (now : time.Time) (container : ContainerData)
| CallUpdateStats (now : time.Time) (id : string) (stats : option Stats)
| CallRemoveStaleData (now : time.Time).

Definition run_call (s : Store) (k : call) : Store :=
  match k with
  | CallUpdate now container => Update now container s
  | CallUpdateStats now id stats => (UpdateStats now id stats s).1
  | CallRemoveStaleData now => RemoveStaleData now s
  end.

(** The store after the calls, made one after the other on a new store. *)
Definition run_calls (d : time.Duration) (calls : list call) : Store :=
  foldl run_call (NewStore d) calls.

(** The ids the calls of [Update] wrote. *)
Definition updated_ids (calls : list call) : gset string :=
  list_to_set (omap (λ k, match k with
                          | CallUpdate _ container => Some (ID container)
                          | _ => None
                          end) calls).

Definition is_purge (k : call) : bool :=
  match k with CallRemoveStaleData _ => true | _ => false end.

Lemma run_calls_snoc d calls k :
  run_calls d (calls ++ [k]) = run_call (run_calls d calls) k.
Proof. unfold run_calls. by rewrite foldl_app. Qed.

Lemma updated_ids_snoc calls k :
  updated_ids (calls ++ [k]) =
  updated_ids calls ∪
  match k with CallUpdate _ container => {[ID container]} | _ => ∅ end.
Proof.
  unfold updated_ids. rewrite omap_app, list_to_set_app_L. f_equal.
  destruct k; cbn; [|done..]. apply union_empty_r_L.
Qed.

Lemma dom_Update now c s :
  dom (containers (Update now c s)) = {[ID c]} ∪ dom (containers s).
Proof. rewrite Update_containers. apply dom_insert_L. Qed.

Lemma dom_UpdateStats now id stats s :
  dom (containers (UpdateStats now id stats s).1) = dom (containers s).
Proof.
  unfold UpdateStats. destruct (containers s !! id) as [c|] eqn:E; [|done].
  cbn. rewrite dom_insert_L. apply subseteq_union_1_L.
  apply singleton_subseteq_l. by apply elem_of_dom_2 in E.
Qed.

Lemma dom_RemoveStaleData now s :
  dom (containers (RemoveStaleData now s)) ⊆ dom (containers s).
Proof.
  intros k Hk. apply elem_of_dom in Hk as [e He].
  rewrite RemoveStaleData_lookup in He.
  destruct (containers s !! k) eqn:E; [|done]. by apply elem_of_dom_2 in E.
Qed.

Lemma run_calls_ttl d calls : ttl (run_calls d calls) = d.
Proof.
  induction calls as [|k calls IH] using rev_ind; [done|].
  rewrite run_calls_snoc. destruct k; cbn; [done| |done].
  by rewrite UpdateStats_ttl.
Qed.

Lemma run_calls_wf d calls : wf (run_calls d calls).
Proof.
  induction calls as [|k calls IH] using rev_ind; [apply wf_NewStore|].
  rewrite run_calls_snoc. destruct k; cbn.
  - by apply wf_Update.
  - by apply wf_UpdateStats.
  - by apply wf_RemoveStaleData.
Qed.

Lemma run_calls_dom_sub d calls :
  dom (containers (run_calls d calls)) ⊆ updated_ids calls.
Proof.
  induction calls as [|k calls IH] using rev_ind.
  - unfold run_calls, NewStore. cbn. by rewrite dom_empty_L.
  - rewrite run_calls_snoc, updated_ids_snoc. destruct k; cbn [run_call].
    + rewrite dom_Update, (comm_L (∪)). by apply union_mono_r.
    + rewrite dom_UpdateStats, union_empty_r_L. done.
    + rewrite union_empty_r_L.
      etrans; [apply dom_RemoveStaleData|done].
Qed.

Lemma run_calls_dom_eq d calls :
  forallb (λ k, negb (is_purge k)) calls = true →
  dom (containers (run_calls d calls)) = updated_ids calls.
Proof.
  induction calls as [|k calls IH] using rev_ind.
  - intros _. unfold run_calls, NewStore, updated_ids. cbn.
    by rewrite dom_empty_L.
  - rewrite forallb_app. intros [H1 H2]%andb_true_iff.
    rewrite run_calls_snoc, updated_ids_snoc. specialize (IH H1).
    destruct k; cbn [run_call]; [| |done].
    + by rewrite dom_Update, IH, (comm_L (∪)).
    + by rewrite dom_UpdateStats, IH, union_empty_r_L.
Qed.

(** Whatever calls were made on a new store: the TTL is the one the store
    was made with, every entry sits under its own id, [List] never shows
    two entries of one id, no id is in the map that [Update] did not
    write, and, as long as nothing was purged, every id [Update] wrote is
    in the map. *)
Theorem run_calls_invariant (d : time.Duration) (calls : list call)
    (now : time.Time) :
  ttl (run_calls d calls) = d ∧
  wf (run_calls d calls) ∧
  NoDup (ID <$> List now (run_calls d calls)) ∧
  dom (containers (run_calls d calls)) ⊆ updated_ids calls ∧
  (forallb (λ k, negb (is_purge k)) calls = true →
   dom (containers (run_calls d calls)) = updated_ids calls).
Proof.
  split; [apply run_calls_ttl|]. split; [apply run_calls_wf|].
  split; [apply NoDup_List_ID, run_calls_wf|].
  split; [apply run_calls_dom_sub|apply run_calls_dom_eq].
Qed.

End StoreCalls.

(** * The ordering that [sortContainers] hands to [sort.Slice] *)

Section LessOrder.

Import store service.

(** [less a b] spelled out: [a] has the smaller priority number; or the
    priorities are equal and [a] has stats while [b] has none, or both
    have stats and [a] uses more memory, or the memory figures are equal
    (or both have no stats) and [a] was created later. *)
Definition before (a b : ContainerData) : Prop :=
  getStatusPriority (State a) < getStatusPriority (State b) ∨
  (getStatusPriority (State a) = getStatusPriority (State b) ∧
   match Stats_ a, Stats_ b with
   | Some si, Some sj =>
       Memory_Usage sj < Memory_Usage si ∨
       (Memory_Usage si = Memory_Usage sj ∧ Created b < Created a)
   | Some _, None => True
   | None, Some _ => False
   | None, None => Created b < Created a
   end).

Lemma less_before (a b : ContainerData) : less a b = true ↔ before a b.
Proof.
  unfold less, before.
  generalize (getStatusPriority (State a)) (getStatusPriority (State b)).
  intros pa pb.
  destruct (Stats_ a) as [sa|], (Stats_ b) as [sb|];
    repeat case_bool_decide; split; intros; try done; lia.
Qed.

(** [sort.Slice] asks for a [less] that is a strict weak ordering; the
    closure of [sortContainers] is one: no entry is less than itself, two
    entries are never less than each other, less is transitive, and so is
    being tied (neither less than the other). *)
Theorem less_strict_weak_order :
  (∀ a, less a a = false) ∧
  (∀ a b, less a b = true → less b a = false) ∧
  (∀ a b c, less a b = true → less b c = true → less a c = true) ∧
  (∀ a b c, less a b = false → less b a = false →
            less b c = false → less c b = false →
            less a c = false ∧ less c a = false).
Proof.
  split; [|split; [|split]].
  - intros a. apply not_true_iff_false. rewrite less_before.
    unfold before. destruct (Stats_ a); lia.
  - intros a b. rewrite <- not_true_iff_false, !less_before.
    unfold before. destruct (Stats_ a), (Stats_ b); lia.
  - intros a b c. rewrite !less_before.
    unfold before. destruct (Stats_ a), (Stats_ b), (Stats_ c); lia.
  - intros a b c. rewrite <- !not_true_iff_false, !less_before.
    unfold before. destruct (Stats_ a), (Stats_ b), (Stats_ c); lia.
Qed.

End LessOrder.

(** * What a pass does to the entry of one id *)

Section PassOutcome.

Import store service.

Variable clock : nat → time.Time.
Variable getStats : string → result docker.ContainerStats.
Variable id : string.
Variable ttl0 : time.Duration.

(** The instants the pass reads are within one TTL of each other. *)
Hypothesis Hpass : ∀ i j, time.Sub (clock j) (clock i) ≤ ttl0.

Implicit Types (w : World) (e : ContainerData) (d c : docker.Container).

(** A property [K] that the step of [a] brings about wherever [I] holds,
    that every step keeps, and before which every step keeps [I] or
    brings [K] about, holds after a loop that meets [a]. *)
Lemma forM_reaches {A} (I K : World → Prop) (l : list A) (f : A → M unit) (a : A) :
  a ∈ l →
  (∀ w, I w → K (f a w).2) →
  (∀ b w, b ∈ l → I w → I (f b w).2 ∨ K (f b w).2) →
  (∀ b w, b ∈ l → K w → K (f b w).2) →
  ∀ w, I w → K (forM_ l f w).2.
Proof.
  induction l as [|b l IH]; intros Hin Ha HI HK w Hw; [by inversion Hin|].
  rewrite forM_cons.
  assert (HKl : ∀ x w', x ∈ l → K w' → K (f x w').2).
  { intros x w' Hx. apply HK. apply elem_of_cons; by right. }
  apply elem_of_cons in Hin as [->|Hin].
  - apply forM_keeps; [done|by apply Ha].
  - destruct (HI b w) as [Hb|Hb]; [apply elem_of_cons; by left|done| |].
    + apply IH; [done..| |done|done].
      intros x w' Hx. apply HI. apply elem_of_cons; by right.
    + by apply forM_keeps.
Qed.

(** The entry of [id] is still [oe], the one the pass began with. *)
Definition untouched (oe : option ContainerData) (w : World) : Prop :=
  ttl (w_store w) = ttl0 ∧ entry w id = oe.

(** The entry of [id] has the listed fields of [d], the stats [st], and was
    written during the pass. *)
Definition merged (d : docker.Container) (st : option Stats) (w : World) : Prop :=
  ttl (w_store w) = ttl0 ∧
  ∃ e', entry w id = Some e' ∧
        listed_fields e' = listed_fields (fromDocker d) ∧
        Stats_ e' = st ∧ ∃ i, Updated e' = clock i.

(** The stats an update with the record [d] carries forward from the
    entry [oe] it finds. *)
Definition carried (oe : option ContainerData) (d : docker.Container)
  : option Stats :=
  match oe with
  | Some e => if bool_decide (docker.State d ≠ "exited") then Stats_ e else None
  | None => None
  end.

(** The stats of [d]'s entry after the enrichment, [st] being its stats
    before. *)
Definition enriched (d : docker.Container) (st : option Stats) : option Stats :=
  if bool_decide (docker.State d = "running") then
    match getStats (docker.ID d) with
    | Ok stats => Some (convertStats stats)
    | Err _ => st
    end
  else st.

Lemma carried_exited oe d : docker.State d = "exited" → carried oe d = None.
Proof.
  intros H. unfold carried. destruct oe; [|done].
  rewrite bool_decide_false; [done|]. by intros Hn.
Qed.

Lemma untouched_tick oe st tk tk' :
  untouched oe (mkWorld st tk) → untouched oe (mkWorld st tk').
Proof. done. Qed.

Lemma merged_tick d s0 st tk tk' :
  merged d s0 (mkWorld st tk) → merged d s0 (mkWorld st tk').
Proof. done. Qed.

Lemma untouched_Update_other oe now x st tk tk' :
  ID x ≠ id → untouched oe (mkWorld st tk) →
  untouched oe (mkWorld (Update now x st) tk').
Proof.
  intros Hne [Httl He]. split; [done|].
  rewrite entry_Update. by rewrite decide_False.
Qed.

Lemma untouched_UpdateStats_other oe now k0 stats st tk tk' :
  k0 ≠ id → untouched oe (mkWorld st tk) →
  untouched oe (mkWorld (UpdateStats now k0 stats st).1 tk').
Proof.
  intros Hne [Httl He]. split; [cbn; by rewrite UpdateStats_ttl|].
  rewrite entry_UpdateStats. by rewrite decide_False.
Qed.

Lemma merged_Update_other d s0 now x st tk tk' :
  ID x ≠ id → merged d s0 (mkWorld st tk) →
  merged d s0 (mkWorld (Update now x st) tk').
Proof.
  intros Hne [Httl (e' & He' & H)]. split; [done|]. exists e'.
  split; [|done]. rewrite entry_Update. by rewrite decide_False.
Qed.

Lemma merged_UpdateStats_other d s0 now k0 stats st tk tk' :
  k0 ≠ id → merged d s0 (mkWorld st tk) →
  merged d s0 (mkWorld (UpdateStats now k0 stats st).1 tk').
Proof.
  intros Hne [Httl (e' & He' & H)]. split; [cbn; by rewrite UpdateStats_ttl|].
  exists e'. split; [|done]. rewrite entry_UpdateStats. by rewrite decide_False.
Qed.

(** The update with [d] itself: from the entry it finds to a merged one. *)
Lemma merged_by_Update d oe n st tk tk' :
  docker.ID d = id → untouched oe (mkWorld st tk) →
  merged d (carried oe d) (mkWorld (Update (clock n) (fromDocker d) st) tk').
Proof.
  intros Hid [Httl He]. split; [done|].
  exists (stored_by_Update (clock n) (fromDocker d) st). split.
  { rewrite entry_Update. by rewrite decide_True. }
  split; [apply listed_fields_stored|]. split; [|by exists n].
  unfold stored_by_Update, carried, entry in *. cbn in He. cbn [ID fromDocker].
  rewrite Hid, He. destruct oe as [e|]; [|done].
  change (State (fromDocker d)) with (docker.State d).
  by case_bool_decide.
Qed.

Lemma merged_again d s0 n st tk tk' :
  docker.ID d = id → (docker.State d = "exited" → s0 = None) →
  merged d s0 (mkWorld st tk) →
  merged d s0 (mkWorld (Update (clock n) (fromDocker d) st) tk').
Proof.
  intros Hid Hex [Httl (e' & He' & Hf & HS & HU)]. split; [done|].
  exists (stored_by_Update (clock n) (fromDocker d) st). split.
  { rewrite entry_Update. by rewrite decide_True. }
  split; [apply listed_fields_stored|]. split; [|by exists n].
  unfold stored_by_Update, entry in *. cbn in He'. cbn [ID fromDocker].
  rewrite Hid, He'. change (State (fromDocker d)) with (docker.State d).
  case_bool_decide as Hs; [done|].
  cbn. symmetry. apply Hex. by destruct (decide (docker.State d = "exited")).
Qed.

(** ** The steps of the pass *)

Lemma untouched_resolveTransition oe cm stored w :
  (∀ d, cm !! ID stored = Some d →
        completes (State stored) (docker.State d) = true → docker.ID d ≠ id) →
  untouched oe w → untouched oe (resolveTransition clock cm stored w).2.
Proof.
  intros Hne Hu.
  destruct (resolveTransition_cases clock cm stored w) as [->|(d & Hd & Hc & ->)];
    [done|].
  rewrite store_Update_run. cbn [snd]. destruct w as [st tk].
  apply untouched_Update_other with tk; [|done]. cbn. by apply Hne.
Qed.

Lemma untouched_mergeContainer oe c w :
  docker.ID c ≠ id →
  untouched oe w → untouched oe (mergeContainer clock c w).2.
Proof.
  intros Hne Hu. destruct w as [st tk].
  destruct (mergeContainer_cases clock c (mkWorld st tk)) as [[-> _]|[-> _]];
    cbn [snd w_store w_tick] in *.
  - by apply untouched_tick with tk.
  - rewrite store_Update_run. cbn [snd w_store w_tick].
    by apply untouched_Update_other with tk.
Qed.

Lemma untouched_statsWorker oe c w :
  docker.ID c ≠ id →
  untouched oe w → untouched oe (statsWorker clock getStats c w).2.
Proof.
  intros Hne Hu. destruct w as [st tk].
  destruct (statsWorker_cases clock getStats c (mkWorld st tk))
    as [->|(s & _ & ->)]; [done|].
  cbn [snd w_store w_tick]. by apply untouched_UpdateStats_other with tk.
Qed.

Lemma merge_reaches d oe w :
  docker.ID d = id →
  (∀ e, oe = Some e → sticky (State e) = false) →
  untouched oe w → merged d (carried oe d) (mergeContainer clock d w).2.
Proof.
  intros Hid Hns Hu. destruct w as [st tk].
  destruct (mergeContainer_cases clock d (mkWorld st tk))
    as [[_ (e & He & _ & Hs)]|[-> _]]; cbn [snd w_store w_tick] in *.
  - destruct Hu as [_ Hu]. rewrite Hid, Hu in He. rewrite (Hns e He) in Hs. done.
  - rewrite store_Update_run. cbn [snd w_store w_tick].
    by apply merged_by_Update with tk.
Qed.

Lemma merged_mergeContainer d s0 c w :
  docker.ID d = id → (docker.ID c = id → c = d) →
  (docker.State d = "exited" → s0 = None) →
  merged d s0 w → merged d s0 (mergeContainer clock c w).2.
Proof.
  intros Hid Honly Hex Hm. destruct w as [st tk].
  destruct (mergeContainer_cases clock c (mkWorld st tk)) as [[-> _]|[-> _]];
    cbn [snd w_store w_tick] in *.
  - by apply merged_tick with tk.
  - rewrite store_Update_run. cbn [snd w_store w_tick].
    destruct (decide (docker.ID c = id)) as [Hc|Hne].
    + rewrite (Honly Hc). by apply merged_again with tk.
    + by apply merged_Update_other with tk.
Qed.

Lemma merged_statsWorker_other d s0 c w :
  (docker.ID c = id →
   ∀ stats, getStats (docker.ID c) = Ok stats → s0 = Some (convertStats stats)) →
  merged d s0 w → merged d s0 (statsWorker clock getStats c w).2.
Proof.
  intros Hc Hm. destruct w as [st tk].
  destruct (statsWorker_cases clock getStats c (mkWorld st tk))
    as [->|(s & Hs & ->)]; [done|].
  cbn [snd w_store w_tick]. destruct (decide (docker.ID c = id)) as [Hid|Hne].
  - destruct Hm as [Httl (e' & He' & Hf & HS & HU)].
    split; [cbn; by rewrite UpdateStats_ttl|].
    rewrite entry_UpdateStats, decide_True by done.
    unfold entry in He'. cbn in He'. rewrite He'. cbn. eexists. split; [done|].
    split; [done|]. split; [cbn; symmetry; by apply Hc|by eexists].
  - by apply merged_UpdateStats_other with tk.
Qed.

Lemma stats_reaches d s0 stats w :
  docker.ID d = id → getStats (docker.ID d) = Ok stats →
  merged d s0 w →
  merged d (Some (convertStats stats)) (statsWorker clock getStats d w).2.
Proof.
  intros Hid Hget [Httl (e' & He' & Hf & HS & HU)]. destruct w as [st tk].
  unfold statsWorker. rewrite Hget, bind_run, store_UpdateStats_run, Hid, He'.
  unfold ret. cbn [fst snd w_store w_tick].
  split; [cbn; by rewrite UpdateStats_ttl|].
  rewrite entry_UpdateStats, decide_True by done.
  unfold entry in He'. cbn in He'. rewrite He'. cbn. eexists. split; [done|].
  split; [done|]. split; [done|by eexists].
Qed.

Lemma merged_RemoveStaleData d s0 w :
  merged d s0 w → merged d s0 (store_RemoveStaleData clock w).2.
Proof.
  intros Hk. destruct w as [st tk]. rewrite store_RemoveStaleData_run.
  cbn [snd w_store w_tick]. pose proof Hk as [Httl (e' & He' & Hf & HS & i & HU)].
  split; [done|]. exists e'. split; [|by eauto].
  unfold entry in *. cbn [w_store] in *. rewrite RemoveStaleData_lookup, He'.
  assert (stale st (clock tk) e' = false) as ->; [|done].
  apply stale_false. rewrite HU, Httl. apply Hpass.
Qed.

End PassOutcome.

(** * Outcomes of a pass *)

Section PassTheorems.

Import store service.

Implicit Types (w : World) (e : ContainerData) (d c : docker.Container).

Lemma ttl_mergeContainer clock c w :
  ttl (w_store (mergeContainer clock c w).2) = ttl (w_store w).
Proof. by destruct (mergeContainer_cases clock c w) as [[-> _]|[-> _]]. Qed.

Lemma ttl_statsWorker clock getStats c w :
  ttl (w_store (statsWorker clock getStats c w).2) = ttl (w_store w).
Proof.
  destruct (statsWorker_cases clock getStats c w) as [->|(s & _ & ->)]; [done|].
  cbn. by rewrite UpdateStats_ttl.
Qed.

(** A record of the listing whose id has no sticky entry (none at all, or
    one in another state, stale or not) is merged: after the pass the
    entry of the id has the record's id, names, image, state, status and
    creation time.  Its stats are the converted sample when the record is
    "running" and its sample was fetched; otherwise they are the stats
    the entry had before, if it had any and the record is not "exited",
    and none else.  (The store has the key invariant, the record is the
    listing's only one of its id, and the instants the pass reads lie
    within one TTL of each other.) *)
Theorem Sync_merges_record (clock : nat → time.Time)
    (sched : list docker.Container → list docker.Container)
    (getStats : string → result docker.ContainerStats)
    (listing : list docker.Container) (id : string) (d : docker.Container)
    (w0 : World) :
  (∀ l, sched l ≡ₚ l) →
  wf (w_store w0) →
  (∀ e, entry w0 id = Some e → sticky (State e) = false) →
  (∀ i j, time.Sub (clock j) (clock i) ≤ ttl (w_store w0)) →
  d ∈ listing → docker.ID d = id →
  (∀ c, c ∈ listing → docker.ID c = id → c = d) →
  ∃ e', entry (Sync clock (Ok listing) getStats sched w0).2 id = Some e' ∧
        listed_fields e' =
          (docker.ID d, docker.Names d, docker.Image d, docker.State d,
           docker.Status d, docker.Created d) ∧
        Stats_ e' = enriched getStats d (carried (entry w0 id) d).
Proof.
  intros Hsched Hwf Hns Hpass Hd Hid Honly.
  rewrite Sync_run. cbn [snd].
  set (ttl0 := ttl (w_store w0)) in *. set (oe := entry w0 id) in *.
  assert (Hrun : ∀ c,
            c ∈ sched (filter (λ c, docker.State c = "running") listing) →
            c ∈ listing ∧ docker.State c = "running").
  { intros c Hc. rewrite Hsched in Hc. by apply list_elem_of_filter in Hc as [? ?]. }
  (* the first two loops *)
  assert (Hmerged : merged clock id ttl0 d (carried oe d) (after_merge clock listing w0)).
  { unfold after_merge.
    apply (forM_reaches (untouched id ttl0 oe)) with d; [done| | | |].
    - intros w Hu. by apply merge_reaches.
    - intros b w Hb Hu. destruct (decide (docker.ID b = id)) as [Hbid|Hne].
      + right. rewrite (Honly b Hb Hbid). by apply merge_reaches.
      + left. by apply untouched_mergeContainer.
    - intros b w Hb Hm. apply merged_mergeContainer; [done| | |done].
      + intros Hbid. by apply Honly.
      + apply carried_exited.
    - unfold after_transitions. apply forM_keeps; [|done].
      intros stored w Hin. apply untouched_resolveTransition.
      intros d' Hd' Hc Hd'id.
      apply containerMap_Some in Hd' as [_ Hkey]. rewrite Hd'id in Hkey.
      apply elem_of_List in Hin as [[k Hk] _].
      rewrite <- (Hwf _ _ Hk), <- Hkey in Hk.
      apply completes_sticky in Hc. rewrite (Hns stored Hk) in Hc. done. }
  (* the enrichment and the purge *)
  assert (merged clock id ttl0 d (enriched getStats d (carried oe d))
            (store_RemoveStaleData clock
               (after_stats clock getStats sched listing w0)).2) as Hk.
  { apply merged_RemoveStaleData; [done|]. unfold after_stats, enriched.
    case_bool_decide as Hst.
    - destruct (getStats (docker.ID d)) as [stats|err] eqn:Hget.
      + apply (forM_reaches (merged clock id ttl0 d (carried oe d))) with d;
          [| | | |done].
        * rewrite Hsched. by apply list_elem_of_filter.
        * intros w Hm. by apply stats_reaches with (carried oe d).
        * intros b w Hb Hm. apply Hrun in Hb as [Hb _].
          destruct (decide (docker.ID b = id)) as [Hbid|Hne].
          -- right. rewrite (Honly b Hb Hbid).
             by apply stats_reaches with (carried oe d).
          -- left. apply merged_statsWorker_other; [|done]. by intros ?.
        * intros b w Hb Hm. apply merged_statsWorker_other; [|done].
          intros Hbid stats' Hs. rewrite Hbid, <- Hid, Hget in Hs.
          by injection Hs as <-.
      + apply forM_keeps; [|done].
        intros b w Hb Hm. apply merged_statsWorker_other; [|done].
        intros Hbid stats' Hs. rewrite Hbid, <- Hid, Hget in Hs. done.
    - apply forM_keeps; [|done].
      intros b w Hb Hm. apply merged_statsWorker_other; [|done].
      intros Hbid. apply Hrun in Hb as [Hb Hbrun].
      rewrite (Honly b Hb Hbid) in Hbrun. done. }
  destruct Hk as [_ (e' & He' & Hf & HS & _)]. by exists e'.
Qed.

(** A first pass over a new store: a running container whose sample is
    fetched. *)
Lemma Sync_merges_record_witness :
  ∃ e', entry (Sync (λ _, 10) (Ok [record_running]) (λ _, Ok sample_test) (λ l, l)
                 (mkWorld (NewStore 30) 0)).2 "a" = Some e' ∧
        listed_fields e' = ("a", ["web"], "nginx", "running", "Up 1 second", 1000) ∧
        Stats_ e' = Some (convertStats sample_test).
Proof.
  apply (Sync_merges_record (λ _, 10) (λ l, l) (λ _, Ok sample_test)
           [record_running] "a" record_running (mkWorld (NewStore 30) 0)).
  - reflexivity.
  - apply wf_NewStore.
  - intros e He. vm_compute in He. discriminate.
  - intros i j. vm_compute. discriminate.
  - constructor.
  - reflexivity.
  - intros c Hc _. by apply list_elem_of_singleton in Hc.
Defined.

(** An id the listing has no record of: the pass does nothing to its
    entry but purge it, when it is stale at the instant of the purge, the
    last instant the pass reads.  No entry is made for such an id. *)
Theorem Sync_unlisted_id (clock : nat → time.Time)
    (sched : list docker.Container → list docker.Container)
    (getStats : string → result docker.ContainerStats)
    (listing : list docker.Container) (k : string) (w0 : World) :
  (∀ l, sched l ≡ₚ l) →
  (∀ c, c ∈ listing → docker.ID c ≠ k) →
  let w' := (Sync clock (Ok listing) getStats sched w0).2 in
  entry w' k =
  match entry w0 k with
  | Some e => if stale (w_store w0) (clock (pred (w_tick w'))) e then None
              else Some e
  | None => None
  end.
Proof.
  intros Hsched Hno w'. subst w'. rewrite Sync_run. cbn [snd].
  set (ttl0 := ttl (w_store w0)).
  assert (untouched k ttl0 (entry w0 k)
            (after_stats clock getStats sched listing w0)) as [Httl He].
  { unfold after_stats. apply forM_keeps.
    { intros c w Hc. apply untouched_statsWorker.
      rewrite Hsched in Hc. apply list_elem_of_filter in Hc as [_ Hc].
      by apply Hno. }
    unfold after_merge. apply forM_keeps.
    { intros c w Hc. apply untouched_mergeContainer. by apply Hno. }
    unfold after_transitions. apply forM_keeps; [|done].
    intros stored w _. apply untouched_resolveTransition.
    intros d Hd _. apply containerMap_Some in Hd as [Hd _]. by apply Hno. }
  rewrite store_RemoveStaleData_run. cbn [snd w_tick pred].
  unfold entry in *. cbn [w_store]. rewrite RemoveStaleData_lookup, He.
  destruct (containers (w_store w0) !! k) as [e|]; [|done].
  unfold stale. by rewrite Httl.
Qed.

(** The "starting" entry of the example, the listing being empty: kept at
    instant 10, purged at instant 100. *)
Lemma Sync_unlisted_id_witness :
  entry (Sync (λ _, 10) (Ok []) no_stats (λ l, l) world_starting).2 "a"
    = Some entry_starting ∧
  entry (Sync (λ _, 100) (Ok []) no_stats (λ l, l) world_starting).2 "a" = None.
Proof.
  split.
  - rewrite (Sync_unlisted_id (λ _, 10) (λ l, l) no_stats [] "a" world_starting).
    + vm_compute. reflexivity.
    + reflexivity.
    + intros c Hc. by apply elem_of_nil in Hc.
  - rewrite (Sync_unlisted_id (λ _, 100) (λ l, l) no_stats [] "a" world_starting).
    + vm_compute. reflexivity.
    + reflexivity.
    + intros c Hc. by apply elem_of_nil in Hc.
Defined.

(** A pass whose listing succeeded returns no error, whatever the stats
    calls returned; it leaves the TTL alone, and when it ends no entry of
    the map is stale at the instant of its purge. *)
Theorem Sync_leaves_no_stale (clock : nat → time.Time)
    (sched : list docker.Container → list docker.Container)
    (getStats : string → result docker.ContainerStats)
    (listing : list docker.Container) (w0 : World) :
  (Sync clock (Ok listing) getStats sched w0).1 = None ∧
  ttl (w_store (Sync clock (Ok listing) getStats sched w0).2) = ttl (w_store w0) ∧
  ∀ k e, entry (Sync clock (Ok listing) getStats sched w0).2 k = Some e →
         time.Sub (clock (pred (w_tick (Sync clock (Ok listing) getStats sched w0).2)))
                  (Updated e) ≤ ttl (w_store w0).
Proof.
  rewrite Sync_run. cbn [fst snd]. split; [done|].
  assert (Httl : ttl (w_store (after_stats clock getStats sched listing w0))
                 = ttl (w_store w0)).
  { unfold after_stats.
    apply (forM_keeps (λ w, ttl (w_store w) = ttl (w_store w0))).
    { intros c w _ <-. apply ttl_statsWorker. }
    unfold after_merge.
    apply (forM_keeps (λ w, ttl (w_store w) = ttl (w_store w0))).
    { intros c w _ <-. apply ttl_mergeContainer. }
    unfold after_transitions.
    apply (forM_keeps (λ w, ttl (w_store w) = ttl (w_store w0))); [|done].
    intros c w _ <-. apply ttl_resolveTransition. }
  rewrite store_RemoveStaleData_run. cbn [snd w_store w_tick pred].
  split; [done|]. intros k e. unfold entry. cbn [w_store].
  rewrite RemoveStaleData_lookup.
  destruct (containers _ !! k) as [e0|]; [|done].
  destruct (stale _ _ e0) eqn:Hs; [done|]. intros [= <-].
  apply stale_false in Hs. by rewrite Httl in Hs.
Qed.

(** The enrichment changes stats and [Updated] only: it makes no entry,
    removes none, and leaves id, names, image, state, status and creation
    time of every entry as they are, whatever the order of its workers. *)
Theorem SyncStats_keeps_listed_fields (clock : nat → time.Time)
    (sched : list docker.Container → list docker.Container)
    (getStats : string → result docker.ContainerStats)
    (listing : list docker.Container) (w : World) (k : string) :
  listed_fields <$> entry (SyncStats clock getStats sched listing w).2 k
    = listed_fields <$> entry w k ∧
  ttl (w_store (SyncStats clock getStats sched listing w).2) = ttl (w_store w).
Proof.
  unfold SyncStats.
  apply (forM_keeps (λ w', listed_fields <$> entry w' k = listed_fields <$> entry w k ∧
                           ttl (w_store w') = ttl (w_store w))); [|done].
  intros c [st tk] _ [Hf Httl].
  destruct (statsWorker_cases clock getStats c (mkWorld st tk))
    as [->|(s & _ & ->)]; [done|].
  cbn [snd w_store w_tick]. split; [|cbn; by rewrite UpdateStats_ttl].
  rewrite <- Hf, entry_UpdateStats. case_decide; [|done].
  unfold entry. cbn [w_store]. by destruct (containers st !! k).
Qed.

End PassTheorems.

(** * The optimistic marker of start and stop *)

Section Marker.

Import store service.

Variable clock : nat → time.Time.

Implicit Types (w : World) (e : ContainerData) (c : docker.Container).

(** The snapshot [StartContainer] and [StopContainer] store first: the
    known snapshot with the sticky state and its status text. *)
Definition marker (state status : string) (id : string)
    (seed : result (list docker.Container)) (w : World) : ContainerData :=
  set_Status status (set_State state (known clock id seed w)).

(** The command succeeded, or it failed and the listing asked for
    afterwards failed too or has no record of [id]: no rollback. *)
Definition no_rollback (id : string) (cmd : option error)
    (requery : result (list docker.Container)) : Prop :=
  cmd = None ∨
  match requery with
  | Ok containers => findContainer id containers = None
  | Err _ => True
  end.

Lemma StartContainer_marker_run id seed cmd requery w :
  no_rollback id cmd requery →
  StartContainer clock id seed cmd requery w =
  (cmd,
   mkWorld (Update (clock (tick_after_Get id w))
              (marker StateStarting "Starting" id seed w) (w_store w))
           (S (tick_after_Get id w))).
Proof.
  intros Hno. unfold StartContainer, marker, known.
  rewrite bind_run, store_Get_run. cbn [fst snd].
  destruct (store.Get (clock (w_tick w)) id (w_store w)) as [existing exists_].
  rewrite bind_run, store_Update_run. cbn [fst snd].
  destruct cmd as [err|]; [|done].
  destruct Hno as [|Hno]; [done|]. rewrite bind_run.
  destruct requery as [containers|]; [|done]. by rewrite Hno.
Qed.

Lemma StopContainer_marker_run id seed cmd requery w :
  no_rollback id cmd requery →
  StopContainer clock id seed cmd requery w =
  (cmd,
   mkWorld (Update (clock (tick_after_Get id w))
              (marker StateStopping "Stopping" id seed w) (w_store w))
           (S (tick_after_Get id w))).
Proof.
  intros Hno. unfold StopContainer, marker, known.
  rewrite bind_run, store_Get_run. cbn [fst snd].
  destruct (store.Get (clock (w_tick w)) id (w_store w)) as [existing exists_].
  rewrite bind_run, store_Update_run. cbn [fst snd].
  destruct cmd as [err|]; [|done].
  destruct Hno as [|Hno]; [done|]. rewrite bind_run.
  destruct requery as [containers|]; [|done]. by rewrite Hno.
Qed.

(** What the store holds once the marker is written, for a sticky
    [state]. *)
Definition marked (state status : string) (id : string)
    (seed : result (list docker.Container)) (w w' : World) : Prop :=
  (∃ e', entry w' id = Some e' ∧
     State e' = state ∧ Status e' = status ∧
     Updated e' = clock (tick_after_Get id w) ∧
     (∀ e, store.Get (clock (w_tick w)) id (w_store w) = (e, true) →
           Names e' = Names e ∧ Image e' = Image e ∧ Created e' = Created e ∧
           Stats_ e' = Stats_ e) ∧
     (∀ containers c,
        (store.Get (clock (w_tick w)) id (w_store w)).2 = false →
        seed = Ok containers → findContainer id containers = Some c →
        Names e' = docker.Names c ∧ Image e' = docker.Image c ∧
        Created e' = docker.Created c)) ∧
  (∀ k, k ≠ id → entry w' k = entry w k) ∧
  ttl (w_store w') = ttl (w_store w) ∧
  wf (w_store w').

Lemma marked_by_Update state status id seed w tk :
  state ≠ "exited" →
  wf (w_store w) →
  (store.Get (clock (w_tick w)) id (w_store w)).2 = true ∨
  (∃ l c0, seed = Ok l ∧ findContainer id l = Some c0) →
  marked state status id seed w
    (mkWorld (Update (clock (tick_after_Get id w))
                (marker state status id seed w) (w_store w)) tk).
Proof.
  intros Hst Hwf Hk. pose proof (known_ID clock id seed w Hwf Hk) as Hid.
  assert (HID : ID (marker state status id seed w) = id) by done.
  split; [|split; [|split]].
  - exists (stored_by_Update (clock (tick_after_Get id w))
              (marker state status id seed w) (w_store w)).
    split; [rewrite entry_Update; by rewrite decide_True|].
    split; [by rewrite State_stored_by_Update|].
    split; [by rewrite Status_stored_by_Update|]. split; [done|]. split.
    + intros e HG. unfold stored_by_Update. rewrite HID.
      pose proof (Get_true _ _ _ _ HG) as [Hraw _]. rewrite Hraw.
      rewrite bool_decide_true by done. cbn.
      unfold known. by rewrite HG.
    + intros containers c HG Hs Hc.
      pose proof (listed_fields_stored (clock (tick_after_Get id w))
                    (marker state status id seed w) (w_store w)) as Hf.
      unfold listed_fields in Hf.
      set (e' := stored_by_Update _ _ _) in *.
      assert (HN : Names e' = Names (marker state status id seed w))
        by congruence.
      assert (HI : Image e' = Image (marker state status id seed w))
        by congruence.
      assert (HC : Created e' = Created (marker state status id seed w))
        by congruence.
      rewrite HN, HI, HC. unfold marker, known.
      destruct (store.Get (clock (w_tick w)) id (w_store w)) as [ex [|]];
        [done|].
      by rewrite Hs, Hc.
  - intros k Hne. rewrite entry_Update. rewrite decide_False; [done|].
    by rewrite HID.
  - done.
  - by apply wf_Update.
Qed.

End Marker.

Section MarkerTheorems.

Import store service.

(** [StartContainer] without a rollback (the command succeeded, or it
    failed and the second listing failed or has no record of the id), for
    an id that is in the store within its TTL or in the seed listing:
    the outcome of the command is returned; the entry of the id is in
    state "starting" with status "Starting", stamped with the instant of
    the write; names, image, creation time and stats are those of the
    cached entry, or names, image and creation time those of the seed
    record; no other entry changes. *)
Theorem StartContainer_marks (clock : nat → time.Time) (id : string)
    (seed : result (list docker.Container)) (cmd : option error)
    (requery : result (list docker.Container)) (w : World) :
  wf (w_store w) →
  (store.Get (clock (w_tick w)) id (w_store w)).2 = true ∨
  (∃ l c0, seed = Ok l ∧ findContainer id l = Some c0) →
  no_rollback id cmd requery →
  (StartContainer clock id seed cmd requery w).1 = cmd ∧
  marked clock StateStarting "Starting" id seed w
    (StartContainer clock id seed cmd requery w).2.
Proof.
  intros Hwf Hk Hno. rewrite (StartContainer_marker_run clock _ _ _ _ _ Hno).
  split; [done|]. by apply marked_by_Update.
Qed.

(** The same for [StopContainer], with state "stopping" and status
    "Stopping". *)
Theorem StopContainer_marks (clock : nat → time.Time) (id : string)
    (seed : result (list docker.Container)) (cmd : option error)
    (requery : result (list docker.Container)) (w : World) :
  wf (w_store w) →
  (store.Get (clock (w_tick w)) id (w_store w)).2 = true ∨
  (∃ l c0, seed = Ok l ∧ findContainer id l = Some c0) →
  no_rollback id cmd requery →
  (StopContainer clock id seed cmd requery w).1 = cmd ∧
  marked clock StateStopping "Stopping" id seed w
    (StopContainer clock id seed cmd requery w).2.
Proof.
  intros Hwf Hk Hno. rewrite (StopContainer_marker_run clock _ _ _ _ _ Hno).
  split; [done|]. by apply marked_by_Update.
Qed.

(** A start that succeeds, of a container only the seed listing knows. *)
Lemma StartContainer_marks_witness :
  (StartContainer (λ _, 0) "a" (Ok [record_exited]) None (Err "not asked")
     (mkWorld (NewStore 30) 0)).1 = None ∧
  marked (λ _, 0) StateStarting "Starting" "a" (Ok [record_exited])
    (mkWorld (NewStore 30) 0)
    (StartContainer (λ _, 0) "a" (Ok [record_exited]) None (Err "not asked")
       (mkWorld (NewStore 30) 0)).2.
Proof.
  apply (StartContainer_marks (λ _, 0) "a" (Ok [record_exited]) None
           (Err "not asked") (mkWorld (NewStore 30) 0)).
  - apply wf_NewStore.
  - right. exists [record_exited], record_exited. split; reflexivity.
  - by left.
Defined.

(** A stop that fails, of a cached container, the second listing failing
    too. *)
Lemma StopContainer_marks_witness :
  (StopContainer (λ _, 10) "a" (Err "not asked") (Some "stop failed")
     (Err "listing failed") world_busy).1 = Some "stop failed" ∧
  marked (λ _, 10) StateStopping "Stopping" "a" (Err "not asked") world_busy
    (StopContainer (λ _, 10) "a" (Err "not asked") (Some "stop failed")
       (Err "listing failed") world_busy).2.
Proof.
  apply (StopContainer_marks (λ _, 10) "a" (Err "not asked") (Some "stop failed")
           (Err "listing failed") world_busy).
  - apply wf_UpdateStats, wf_Update, wf_NewStore.
  - left. vm_compute. reflexivity.
  - by right.
Defined.

End MarkerTheorems.

(** * A lifecycle call followed by a pass *)

Section StickyPass.

Import store service.

Variable clock : nat → time.Time.
Variable sched : list docker.Container → list docker.Container.
Variable getStats : string → result docker.ContainerStats.
Variable listing : list docker.Container.
Variable id : string.
Variable e : ContainerData.
Variable w0 : World.

Hypothesis Hsched : ∀ l, sched l ≡ₚ l.
Hypothesis Hwf : wf (w_store w0).
Hypothesis He : entry w0 id = Some e.
Hypothesis Hsticky : sticky (State e) = true.
Hypothesis Hvis : ∀ n, time.Sub (clock n) (Updated e) ≤ ttl (w_store w0).
Hypothesis Hpass : ∀ i j, time.Sub (clock j) (clock i) ≤ ttl (w_store w0).

Lemma List_entry_of_id stored :
  stored ∈ store.List (clock (w_tick w0)) (w_store w0) →
  ID stored = id → stored = e.
Proof.
  intros Hin Hid. apply elem_of_List in Hin as [[k Hk] _].
  rewrite <- (Hwf _ _ Hk), Hid in Hk. unfold entry in He. congruence.
Qed.

Lemma Sync_keeps_sticky :
  (∀ c, c ∈ listing → docker.ID c = id →
        completes (State e) (docker.State c) = false) →
  kept clock id e (ttl (w_store w0))
    (∀ c, c ∈ listing → docker.ID c = id → docker.State c ≠ "running")
    (Sync clock (Ok listing) getStats sched w0).2.
Proof.
  intros Hno. rewrite Sync_run. cbn [snd].
  apply kept_RemoveStaleData; try assumption.
  unfold after_stats. apply forM_keeps.
  { intros c w Hc. apply kept_statsWorker; try assumption.
    intros Hex Hid. rewrite Hsched in Hc.
    apply list_elem_of_filter in Hc as [Hst Hin]. by apply (Hex c). }
  unfold after_merge. apply forM_keeps.
  { intros c w _. apply kept_mergeContainer; assumption. }
  unfold after_transitions. apply forM_keeps.
  { intros stored w Hin.
    apply kept_resolveTransition; try assumption;
      [| |by apply List_entry_of_id].
    - intros k d Hd. by apply containerMap_Some in Hd as [_ ?].
    - intros d Hd. apply containerMap_Some in Hd as [? ?]. by apply Hno. }
  split; [done|]. exists e. split; [done|]. split; [done|]. by split; [left|].
Qed.

Lemma Sync_refreshes_sticky d :
  d ∈ listing → docker.ID d = id →
  (∀ c, c ∈ listing → docker.ID c = id → c = d) →
  completes (State e) (docker.State d) = true →
  refreshed clock id (ttl (w_store w0)) d
    (Sync clock (Ok listing) getStats sched w0).2.
Proof.
  intros Hd Hid Honly Hc. rewrite Sync_run. cbn [snd].
  assert (Hcm : ∀ k d, containerMap listing !! k = Some d → docker.ID d = k).
  { intros k d' Hd'. by apply containerMap_Some in Hd' as [_ ?]. }
  assert (Hcmd : containerMap listing !! id = Some d) by by apply containerMap_only.
  apply refreshed_RemoveStaleData; try assumption.
  unfold after_stats. apply forM_keeps.
  { intros c w _. apply refreshed_statsWorker. }
  unfold after_merge. apply forM_keeps.
  { intros c w Hin. apply refreshed_mergeContainer; try assumption.
    intros Hcid. by apply Honly. }
  unfold after_transitions.
  apply (forM_brings (λ w, ttl (w_store w) = ttl (w_store w0))) with e.
  - apply elem_of_List. split; [by exists id|]. apply stale_false. apply Hvis.
  - intros [st tk] Httl.
    rewrite (resolveTransition_fire clock _ e _ d);
      [|by rewrite (Hwf _ _ He)|done].
    rewrite store_Update_run. cbn [snd]. by apply refreshed_Update.
  - intros stored w _ Httl. by rewrite ttl_resolveTransition.
  - intros stored w _. apply refreshed_resolveTransition; assumption.
  - done.
Qed.

End StickyPass.

Section LifecycleThenSync.

Import store service.

Variable clock : nat → time.Time.
Variable sched : list docker.Container → list docker.Container.
Variable getStats : string → result docker.ContainerStats.

(** What a pass over [listing] makes of the marker [e1] of [id], for the
    state [done_] that completes the marker's transition. *)
Definition settled (done_ : string) (listing : list docker.Container)
    (id : string) (e1 : ContainerData) (w2 : World) : Prop :=
  ((∀ c, c ∈ listing → docker.ID c = id → docker.State c ≠ done_) →
   ∃ e2, entry w2 id = Some e2 ∧ listed_fields e2 = listed_fields e1 ∧
         ((∀ c, c ∈ listing → docker.ID c = id → docker.State c ≠ "running") →
          e2 = e1)) ∧
  (∀ d, d ∈ listing → docker.ID d = id →
        (∀ c, c ∈ listing → docker.ID c = id → c = d) →
        docker.State d = done_ →
        ∃ e2, entry w2 id = Some e2 ∧
              listed_fields e2 = listed_fields (fromDocker d)).

Lemma marker_settles state status done_ listing id seed w0 w1 :
  sticky state = true →
  (∀ s, completes state s = bool_decide (s = done_)) →
  (∀ l, sched l ≡ₚ l) →
  (∀ i j, time.Sub (clock j) (clock i) ≤ ttl (w_store w0)) →
  marked clock state status id seed w0 w1 →
  ∃ e1, entry w1 id = Some e1 ∧ State e1 = state ∧ Status e1 = status ∧
        settled done_ listing id e1
          (Sync clock (Ok listing) getStats sched w1).2.
Proof.
  intros Hst Hdone Hsched Hpass [(e1 & He1 & HS & HT & HU & _) (_ & Httl & Hwf)].
  exists e1. split; [done|]. split; [done|]. split; [done|].
  assert (Hs1 : sticky (State e1) = true) by by rewrite HS.
  assert (Hvis : ∀ n, time.Sub (clock n) (Updated e1) ≤ ttl (w_store w1)).
  { intros n. rewrite HU, Httl. apply Hpass. }
  assert (Hpass1 : ∀ i j, time.Sub (clock j) (clock i) ≤ ttl (w_store w1)).
  { intros i j. rewrite Httl. apply Hpass. }
  split.
  - intros Hno.
    destruct (Sync_keeps_sticky clock sched getStats listing id e1 w1)
      as [_ (e2 & He2 & Hf & _ & Hx)]; try assumption.
    { intros c Hc Hid. rewrite HS, Hdone. apply bool_decide_eq_false.
      by apply Hno. }
    by exists e2.
  - intros d Hd Hid Honly Hdn.
    destruct (Sync_refreshes_sticky clock sched getStats listing id e1 w1)
      with (d := d) as [_ (e2 & He2 & Hf & _)]; try assumption.
    { rewrite HS, Hdone. by apply bool_decide_eq_true. }
    by exists e2.
Qed.

End LifecycleThenSync.

Section LifecycleThenSyncTheorems.

Import store service.

(** [StartContainer] without a rollback, then one pass of [Sync] whose
    listing succeeded, the instants read lying within one TTL of each
    other: the entry of the id carries the marker ("starting",
    "Starting") after the call; after the pass it still has the marker's
    id, names, image, state, status and creation time, and is the marker
    itself, when no listing record of the id is "running" (none at all
    included), and it has the listed fields of the listing's one record of
    the id when that record is "running". *)
Theorem StartContainer_then_Sync (clock : nat → time.Time)
    (sched : list docker.Container → list docker.Container)
    (getStats : string → result docker.ContainerStats)
    (id : string) (seed : result (list docker.Container))
    (cmd : option error) (requery : result (list docker.Container))
    (listing : list docker.Container) (w0 : World) :
  (∀ l, sched l ≡ₚ l) →
  wf (w_store w0) →
  (store.Get (clock (w_tick w0)) id (w_store w0)).2 = true ∨
  (∃ l c0, seed = Ok l ∧ findContainer id l = Some c0) →
  no_rollback id cmd requery →
  (∀ i j, time.Sub (clock j) (clock i) ≤ ttl (w_store w0)) →
  let w1 := (StartContainer clock id seed cmd requery w0).2 in
  ∃ e1, entry w1 id = Some e1 ∧
        State e1 = StateStarting ∧ Status e1 = "Starting" ∧
        settled "running" listing id e1
          (Sync clock (Ok listing) getStats sched w1).2.
Proof.
  intros Hsched Hwf Hk Hno Hpass w1. subst w1.
  apply marker_settles with seed w0; try assumption; [done| |].
  - intros s. unfold completes, StateStarting, StateStopping.
    by repeat case_bool_decide.
  - rewrite (StartContainer_marker_run clock _ _ _ _ _ Hno).
    by apply marked_by_Update.
Qed.

(** [StopContainer] without a rollback, then one pass of [Sync]: the
    entry carries the marker ("stopping", "Stopping") after the call;
    after the pass it keeps the marker's id, names, image, state, status
    and creation time when no listing record of the id is "exited", and is
    the marker itself when none is "running" either; it has the listed
    fields of the listing's one record of the id when that record is
    "exited". *)
Theorem StopContainer_then_Sync (clock : nat → time.Time)
    (sched : list docker.Container → list docker.Container)
    (getStats : string → result docker.ContainerStats)
    (id : string) (seed : result (list docker.Container))
    (cmd : option error) (requery : result (list docker.Container))
    (listing : list docker.Container) (w0 : World) :
  (∀ l, sched l ≡ₚ l) →
  wf (w_store w0) →
  (store.Get (clock (w_tick w0)) id (w_store w0)).2 = true ∨
  (∃ l c0, seed = Ok l ∧ findContainer id l = Some c0) →
  no_rollback id cmd requery →
  (∀ i j, time.Sub (clock j) (clock i) ≤ ttl (w_store w0)) →
  let w1 := (StopContainer clock id seed cmd requery w0).2 in
  ∃ e1, entry w1 id = Some e1 ∧
        State e1 = StateStopping ∧ Status e1 = "Stopping" ∧
        settled "exited" listing id e1
          (Sync clock (Ok listing) getStats sched w1).2.
Proof.
  intros Hsched Hwf Hk Hno Hpass w1. subst w1.
  apply marker_settles with seed w0; try assumption; [done| |].
  - intros s. unfold completes, StateStarting, StateStopping.
    by repeat case_bool_decide.
  - rewrite (StopContainer_marker_run clock _ _ _ _ _ Hno).
    by apply marked_by_Update.
Qed.

(** A start of a container the seed listing reports as exited, then a
    pass whose listing reports it as running. *)
Lemma StartContainer_then_Sync_witness :
  ∃ e1, entry (StartContainer (λ _, 0) "a" (Ok [record_exited]) None
                 (Err "not asked") (mkWorld (NewStore 30) 0)).2 "a" = Some e1 ∧
        State e1 = StateStarting ∧ Status e1 = "Starting" ∧
        settled "running" [record_running] "a" e1
          (Sync (λ _, 0) (Ok [record_running]) no_stats (λ l, l)
             (StartContainer (λ _, 0) "a" (Ok [record_exited]) None
                (Err "not asked") (mkWorld (NewStore 30) 0)).2).2.
Proof.
  apply (StartContainer_then_Sync (λ _, 0) (λ l, l) no_stats "a"
           (Ok [record_exited]) None (Err "not asked") [record_running]
           (mkWorld (NewStore 30) 0)).
  - reflexivity.
  - apply wf_NewStore.
  - right. exists [record_exited], record_exited. split; reflexivity.
  - by left.
  - intros i j. vm_compute. discriminate.
Defined.

(** A stop of a cached running container, then a pass whose listing
    reports it as exited. *)
Lemma StopContainer_then_Sync_witness :
  ∃ e1, entry (StopContainer (λ _, 10) "a" (Err "not asked") None
                 (Err "not asked") world_busy).2 "a" = Some e1 ∧
        State e1 = StateStopping ∧ Status e1 = "Stopping" ∧
        settled "exited" [record_exited] "a" e1
          (Sync (λ _, 10) (Ok [record_exited]) no_stats (λ l, l)
             (StopContainer (λ _, 10) "a" (Err "not asked") None
                (Err "not asked") world_busy).2).2.
Proof.
  apply (StopContainer_then_Sync (λ _, 10) (λ l, l) no_stats "a"
           (Err "not asked") None (Err "not asked") [record_exited] world_busy).
  - reflexivity.
  - apply wf_UpdateStats, wf_Update, wf_NewStore.
  - left. vm_compute. reflexivity.
  - by left.
  - intros i j. vm_compute. discriminate.
Defined.

End LifecycleThenSyncTheorems.

(** * The client's sample and what the service makes of it *)

Section ClientStats.

Import store service dockerClient.

Implicit Types (stats raw : docker.ContainerStats).

(** [(cpuDelta / systemDelta) * numCPUs * 100.0] in float64, with one
    core taken when the sample reports none. *)
Definition client_percent (cpuDelta systemDelta onlineCPUs : Z) : float64 :=
  Float64.mul
    (Float64.mul (Float64.div (Float64.of_Z cpuDelta) (Float64.of_Z systemDelta))
                 (Float64.of_Z (if bool_decide (onlineCPUs = 0) then 1
                                else onlineCPUs)))
    (Float64.of_Z 100).

Lemma ltb_of_Z_pos (n : Z) :
  0 ≤ n < 2 ^ 53 →
  Float64.ltb (Float64.of_Z 0) (Float64.of_Z n) = bool_decide (0 < n).
Proof.
  intros Hn. destruct n as [|p|p]; [done| |lia].
  destruct (of_Z_pos_finite p) as (m & e & ->); [apply digits2_pos_53; lia|].
  done.
Qed.

Lemma to_uint64_range (x : float64) : docker.uint64 (Float64.to_uint64 x).
Proof.
  unfold Float64.to_uint64, docker.uint64, Float64.minInt64.
  destruct (Float64.trunc x) as [n|]; [|lia].
  repeat case_bool_decide; lia.
Qed.

Lemma sub64_range (a b : Z) : docker.uint64 (sub64 a b).
Proof. unfold sub64, docker.uint64. apply Z.mod_pos_bound. lia. Qed.

Lemma sub64_wraps (a b : Z) :
  docker.uint64 a → docker.uint64 b → a < b → sub64 a b = 2 ^ 64 - (b - a).
Proof.
  unfold docker.uint64, sub64. intros Ha Hb Hlt.
  replace (a - b) with (2 ^ 64 - (b - a) + (-1) * 2 ^ 64) by lia.
  rewrite Z.mod_add by lia. apply Z.mod_small. lia.
Qed.

(** The sample [GetContainerStats] returns for a decoded sample whose
    deltas are below [2^53]. *)
Lemma GetContainerStats_run raw :
  docker.ContainerStats_ok raw →
  let cpuDelta :=
    sub64 (docker.CPUStats_TotalUsage raw) (docker.PreCPUStats_TotalUsage raw) in
  let systemDelta :=
    sub64 (docker.CPUStats_SystemCPUUsage raw)
          (docker.PreCPUStats_SystemCPUUsage raw) in
  cpuDelta < 2 ^ 53 → systemDelta < 2 ^ 53 →
  GetContainerStats (Ok raw) =
  Ok (if bool_decide (0 < systemDelta) && bool_decide (0 < cpuDelta)
      then set_TotalUsage
             (Float64.to_uint64
                (client_percent cpuDelta systemDelta
                   (docker.CPUStats_OnlineCPUs raw))) raw
      else raw).
Proof.
  intros (HT & HS & HC & HPT & HPS & _) cpuDelta systemDelta Hcd Hsd.
  unfold GetContainerStats. fold cpuDelta systemDelta.
  pose proof (sub64_range (docker.CPUStats_TotalUsage raw)
                (docker.PreCPUStats_TotalUsage raw)) as Hc0.
  pose proof (sub64_range (docker.CPUStats_SystemCPUUsage raw)
                (docker.PreCPUStats_SystemCPUUsage raw)) as Hs0.
  fold cpuDelta in Hc0. fold systemDelta in Hs0. unfold docker.uint64 in Hc0, Hs0.
  rewrite !ltb_of_Z_pos by lia.
  destruct (bool_decide (0 < systemDelta) && bool_decide (0 < cpuDelta)); [|done].
  rewrite eqb_of_Z_zero by (unfold docker.uint32 in HC; lia).
  unfold client_percent. by case_bool_decide.
Qed.

End ClientStats.

Section ClientStatsTheorems.

Import store service dockerClient.

(** [GetContainerStats] of the client hands an error on as it is.  For a
    decoded sample whose uint64 deltas are below [2^53] it returns a
    sample that differs from the decoded one in
    [CPUStats.CPUUsage.TotalUsage] at most, and whose fields are in their
    ranges; the decoded sample itself when a delta is 0; and when both
    deltas are positive the counter is replaced by [uint64] of
    [(cpuDelta / systemDelta) * numCPUs * 100] in float64, one core taken
    for none. *)
Theorem GetContainerStats_rewrites_total_usage (raw : docker.ContainerStats) :
  docker.ContainerStats_ok raw →
  let cpuDelta :=
    sub64 (docker.CPUStats_TotalUsage raw) (docker.PreCPUStats_TotalUsage raw) in
  let systemDelta :=
    sub64 (docker.CPUStats_SystemCPUUsage raw)
          (docker.PreCPUStats_SystemCPUUsage raw) in
  cpuDelta < 2 ^ 53 → systemDelta < 2 ^ 53 →
  (∀ e, GetContainerStats (Err e) = Err e) ∧
  ∃ stats,
    GetContainerStats (Ok raw) = Ok stats ∧
    docker.ContainerStats_ok stats ∧
    stats = set_TotalUsage (docker.CPUStats_TotalUsage stats) raw ∧
    (cpuDelta = 0 ∨ systemDelta = 0 → stats = raw) ∧
    (cpuDelta ≠ 0 → systemDelta ≠ 0 →
     docker.CPUStats_TotalUsage stats =
     Float64.to_uint64
       (client_percent cpuDelta systemDelta (docker.CPUStats_OnlineCPUs raw))).
Proof.
  intros Hok cpuDelta systemDelta Hcd Hsd. split; [done|].
  rewrite (GetContainerStats_run raw Hok Hcd Hsd). fold cpuDelta systemDelta.
  pose proof (sub64_range (docker.CPUStats_TotalUsage raw)
                (docker.PreCPUStats_TotalUsage raw)) as Hc0.
  pose proof (sub64_range (docker.CPUStats_SystemCPUUsage raw)
                (docker.PreCPUStats_SystemCPUUsage raw)) as Hs0.
  fold cpuDelta in Hc0. fold systemDelta in Hs0. unfold docker.uint64 in Hc0, Hs0.
  eexists. split; [done|].
  destruct (decide (0 < systemDelta)) as [Hs|Hs];
    [destruct (decide (0 < cpuDelta)) as [Hc|Hc]|].
  - rewrite !bool_decide_true by done. cbn [andb].
    split; [|split; [done|split; [lia|done]]].
    destruct Hok as (HT & HS & HC & HPT & HPS & HMU & HML).
    unfold docker.ContainerStats_ok.
    split_and!; [apply to_uint64_range|assumption..].
  - rewrite (bool_decide_false (0 < cpuDelta)) by done.
    rewrite andb_false_r. split; [done|]. split; [by destruct raw|].
    split; [done|]. lia.
  - rewrite (bool_decide_false (0 < systemDelta)) by done. cbn [andb].
    split; [done|]. split; [by destruct raw|]. split; [done|]. lia.
Qed.

(** The sample with [cpuDelta = 200000000] and [systemDelta = 300000000]:
    the counter 1200000000 comes back as 66. *)
Lemma GetContainerStats_rewrites_total_usage_witness :
  (∀ e, GetContainerStats (Err e) = Err e) ∧
  ∃ stats,
    GetContainerStats (Ok sample_two_thirds) = Ok stats ∧
    docker.ContainerStats_ok stats ∧
    stats = set_TotalUsage (docker.CPUStats_TotalUsage stats) sample_two_thirds ∧
    (200000000 = 0 ∨ 300000000 = 0 → stats = sample_two_thirds) ∧
    (200000000 ≠ 0 → 300000000 ≠ 0 → docker.CPUStats_TotalUsage stats = 66).
Proof.
  apply (GetContainerStats_rewrites_total_usage sample_two_thirds).
  - unfold docker.ContainerStats_ok, docker.uint64, docker.uint32. cbn. lia.
  - vm_compute. reflexivity.
  - vm_compute. reflexivity.
Defined.

(** The service behind the client.  [SyncStats] subtracts the previous
    counter from [CPUStats.CPUUsage.TotalUsage], which the client has
    replaced by a percentage [p]: for a running, cached container whose
    decoded sample has positive deltas below [2^53] and [p] below the
    previous counter, the stored memory figures, cores and system time are
    those of the decoded sample, and the stored CPU usage is the service's
    formula at the wrapped difference [2^64 - (previous - p)] in place of
    the sample's [cpuDelta]. *)
Theorem SyncStats_reads_rewritten_usage (clock : nat → time.Time)
    (sched : list docker.Container → list docker.Container)
    (getStats : string → result docker.ContainerStats)
    (listing : list docker.Container) (c : docker.Container)
    (raw : docker.ContainerStats) (w : World) :
  (∀ l, sched l ≡ₚ l) →
  c ∈ listing → docker.State c = "running" →
  is_Some (entry w (docker.ID c)) →
  getStats (docker.ID c) = GetContainerStats (Ok raw) →
  docker.ContainerStats_ok raw →
  let cpuDelta :=
    sub64 (docker.CPUStats_TotalUsage raw) (docker.PreCPUStats_TotalUsage raw) in
  let systemDelta :=
    sub64 (docker.CPUStats_SystemCPUUsage raw)
          (docker.PreCPUStats_SystemCPUUsage raw) in
  let p :=
    Float64.to_uint64
      (client_percent cpuDelta systemDelta (docker.CPUStats_OnlineCPUs raw)) in
  0 < cpuDelta < 2 ^ 53 → 0 < systemDelta < 2 ^ 53 →
  p < docker.PreCPUStats_TotalUsage raw →
  ∃ e' s,
    entry (SyncStats clock getStats sched listing w).2 (docker.ID c) = Some e' ∧
    Stats_ e' = Some s ∧
    Memory_Usage s = docker.MemoryStats_Usage raw ∧
    Memory_Limit s = docker.MemoryStats_Limit raw ∧
    CPU_Cores s = docker.CPUStats_OnlineCPUs raw ∧
    CPU_SystemMS s = docker.CPUStats_SystemCPUUsage raw / 1000000 ∧
    CPU_Usage s =
    Float64.div
      (Float64.of_Z
         (Float64.to_int
            (Float64.mul
               (cpu_percent (2 ^ 64 - (docker.PreCPUStats_TotalUsage raw - p))
                  systemDelta (docker.CPUStats_OnlineCPUs raw))
               (Float64.of_Z 100))))
      (Float64.of_Z 100).
Proof.
  intros Hsched Hin Hrun Hsome Hget Hok cpuDelta systemDelta p Hcd Hsd Hp.
  assert (Hraw : GetContainerStats (Ok raw) = Ok (set_TotalUsage p raw)).
  { rewrite (GetContainerStats_run raw Hok); [|apply Hcd|apply Hsd].
    fold cpuDelta systemDelta p. by rewrite !bool_decide_true by lia. }
  rewrite Hraw in Hget.
  destruct (SyncStats_stores clock sched getStats Hsched listing c _ w
              Hin Hrun Hget Hsome) as (e' & He' & HS).
  exists e', (convertStats (set_TotalUsage p raw)).
  split; [done|]. split; [done|].
  do 4 (split; [done|]).
  destruct Hok as (HT & HS' & HC & HPT & HPS & _).
  unfold convertStats. cbn [CPU_Usage set_TotalUsage docker.CPUStats_TotalUsage
    docker.PreCPUStats_TotalUsage docker.CPUStats_SystemCPUUsage
    docker.PreCPUStats_SystemCPUUsage docker.CPUStats_OnlineCPUs].
  fold systemDelta.
  rewrite (sub64_wraps p _ (to_uint64_range _) HPT Hp).
  rewrite !bool_decide_true by (unfold docker.uint64 in *;
    pose proof (to_uint64_range (client_percent cpuDelta systemDelta
                  (docker.CPUStats_OnlineCPUs raw))) as Hr;
    unfold docker.uint64 in Hr; fold p in Hr; lia).
  cbn [andb].
  rewrite eqb_of_Z_zero by (unfold docker.uint32 in HC; lia).
  unfold cpu_percent. by case_bool_decide.
Qed.

(** The cached running container of the example, sampled through the
    client with [cpuDelta = 200000000] and [systemDelta = 300000000]:
    the service subtracts the previous counter 1000000000 from 66. *)
Lemma SyncStats_reads_rewritten_usage_witness :
  ∃ e' s,
    entry (SyncStats (λ _, 10) (λ _, GetContainerStats (Ok sample_two_thirds))
             (λ l, l) [record_running] world_busy).2 "a" = Some e' ∧
    Stats_ e' = Some s ∧
    Memory_Usage s = 104857600 ∧
    Memory_Limit s = 1073741824 ∧
    CPU_Cores s = 1 ∧
    CPU_SystemMS s = 30000 ∧
    CPU_Usage s =
    Float64.div
      (Float64.of_Z
         (Float64.to_int
            (Float64.mul
               (cpu_percent (2 ^ 64 - (1000000000 - 66)) 300000000 1)
               (Float64.of_Z 100))))
      (Float64.of_Z 100).
Proof.
  apply (SyncStats_reads_rewritten_usage (λ _, 10) (λ l, l)
           (λ _, GetContainerStats (Ok sample_two_thirds)) [record_running]
           record_running sample_two_thirds world_busy).
  - reflexivity.
  - constructor.
  - reflexivity.
  - vm_compute. eauto.
  - reflexivity.
  - unfold docker.ContainerStats_ok, docker.uint64, docker.uint32. cbn. lia.
  - vm_compute. split; reflexivity.
  - vm_compute. split; reflexivity.
  - vm_compute. reflexivity.
Defined.

End ClientStatsTheorems.
